(** * sunset.py: the image sequencer and the command dispatch

    A shallow embedding of [sunset.py] (raspi-sunset-scheduler): the
    functions [init], [show_time], [run_commands], [collect_images] and
    [main], over a model of the part of the operating system they use
    (POSIX paths, a file system with directories, regular files and
    symbolic links, standard input and output, the log).

    The Python functions are stateful and can raise, so they are written
    in a state-and-exception monad over a [world]; the state a function
    has built up when it raises is kept, as in Python. *)

From Stdlib Require Import Ascii String.
From stdpp Require Import base list strings gmap pretty sorting.

Open Scope string_scope.
Open Scope list_scope.

(** ** Strings *)

Module Str.

Definition slash : ascii := "/"%char.

Definition is_slash (c : ascii) : bool := bool_decide (c = slash).

(** [s.startswith('/')] *)
Definition starts_with_slash (s : string) : bool :=
  match s with
  | String c _ => is_slash c
  | EmptyString => false
  end.

(** [s.endswith('/')] *)
Fixpoint ends_with_slash (s : string) : bool :=
  match s with
  | EmptyString => false
  | String c EmptyString => is_slash c
  | String _ r => ends_with_slash r
  end.

(** ['/' in s] *)
Fixpoint has_slash (s : string) : bool :=
  match s with
  | EmptyString => false
  | String c r => is_slash c || has_slash r
  end.

(** [s.rstrip('/')] *)
Fixpoint rstrip_slash (s : string) : string :=
  match s with
  | EmptyString => EmptyString
  | String c r =>
      match rstrip_slash r with
      | EmptyString => if is_slash c then EmptyString else String c EmptyString
      | r' => String c r'
      end
  end.

(** [s.split('/')] *)
Fixpoint split_slash (s : string) : list string :=
  match s with
  | EmptyString => [EmptyString]
  | String c r =>
      if is_slash c then EmptyString :: split_slash r
      else match split_slash r with
           | h :: t => String c h :: t
           | [] => [String c EmptyString]
           end
  end.

(** [name.endswith(suffix)] *)
Fixpoint ends_with (suffix s : string) : bool :=
  bool_decide (s = suffix) ||
  match s with
  | EmptyString => false
  | String _ r => ends_with suffix r
  end.

(** [c.lower()] on one ASCII letter; every other byte is kept. *)
Definition lower_ascii (c : ascii) : ascii :=
  let n := nat_of_ascii c in
  if (65 <=? n)%nat && (n <=? 90)%nat then ascii_of_nat (n + 32) else c.

(** [s.lower()] *)
Fixpoint lower (s : string) : string :=
  match s with
  | EmptyString => EmptyString
  | String c r => String (lower_ascii c) (lower r)
  end.

(** [c.isdigit()] for an ASCII character *)
Definition is_digit (c : ascii) : bool :=
  let n := nat_of_ascii c in (48 <=? n)%nat && (n <=? 57)%nat.

(** Every character of [s] is a decimal digit. *)
Fixpoint digits_only (s : string) : bool :=
  match s with
  | EmptyString => true
  | String c r => is_digit c && digits_only r
  end.

(** ["{:d}".format(n)] for a non-negative [n] *)
Definition format_d (n : nat) : string := pretty (N.of_nat n).

(** ["{:+d}".format(z)]: the sign is always written. *)
Definition format_plus_d (z : Z) : string :=
  match z with
  | Z0 => "+0"
  | Zpos p => "+" +:+ pretty (Npos p)
  | Zneg p => "-" +:+ pretty (Npos p)
  end.

(** ['/' * n] *)
Fixpoint slashes (n : nat) : string :=
  match n with
  | O => EmptyString
  | S m => String slash (slashes m)
  end.

End Str.

(** ** [os.path] (posixpath) *)

Module Path.
Import Str.

(** [os.path.isabs] *)
Definition isabs (s : string) : bool := starts_with_slash s.

(** One step of [os.path.join]: the loop body of [posixpath.join]. *)
Definition join2 (path b : string) : string :=
  if starts_with_slash b then b
  else if bool_decide (path = "") || ends_with_slash path then path +:+ b
  else path +:+ "/" +:+ b.

(** [os.path.join(a, *p)] *)
Definition join (a : string) (p : list string) : string :=
  foldl join2 a p.

(** The cut of [os.path.split] at the last slash: the head keeps it. *)
Fixpoint rsplit (p : string) : string * string :=
  match p with
  | EmptyString => (EmptyString, EmptyString)
  | String c r =>
      match rsplit r with
      | (EmptyString, t) =>
          if is_slash c then (String c EmptyString, t)
          else (EmptyString, String c t)
      | (h, t) => (String c h, t)
      end
  end.

(** [os.path.split]: trailing slashes are stripped from the head unless
    the head is made of slashes only. *)
Definition split (p : string) : string * string :=
  let '(head, tail) := rsplit p in
  (match rstrip_slash head with
   | EmptyString => head
   | stripped => stripped
   end, tail).

(** [os.path.dirname] *)
Definition dirname (p : string) : string := fst (split p).

(** A path as the kernel sees it: the list of its components below the
    root.  Empty components and "." are dropped and ".." steps back; this
    is the lexical resolution of [os.path.normpath]. *)
Definition key := list string.

Definition norm_step (acc : key) (c : string) : key :=
  if bool_decide (c = "") || bool_decide (c = ".") then acc
  else if bool_decide (c = "..") then removelast acc
  else acc ++ [c].

(** [key_from base p]: the location of [p], read from directory [base]
    when [p] is relative. *)
Definition key_from (base : key) (p : string) : key :=
  foldl norm_step (if isabs p then [] else base) (split_slash p).

End Path.

(** ** The file system, the process and its exceptions *)

Module Os.
Import Str Path.

(** What a name in a directory refers to.  [mtime] is the value that
    [os.path.getmtime] returns for it. *)
Inductive node :=
| Dir (mtime : Z)
| File (data : string) (mtime : Z)
| Symlink (target : string).

(** The state a run can observe or change.  [stdin] holds the lines
    still to be read, [stdout] the lines printed so far, [log] the
    messages the [logging] module has emitted, [now] the clock that stamps
    newly written files, [script_dir] is [sys.path[0]]. *)
Record world := World {
  fs : gmap key node;
  cwd : key;
  script_dir : string;
  stdin : list string;
  stdout : list string;
  log : list string;
  now : Z
}.

Definition with_fs (w : world) (m : gmap key node) : world :=
  World m (cwd w) (script_dir w) (stdin w) (stdout w) (log w) (now w).
Definition with_stdin (w : world) (l : list string) : world :=
  World (fs w) (cwd w) (script_dir w) l (stdout w) (log w) (now w).
Definition with_stdout (w : world) (l : list string) : world :=
  World (fs w) (cwd w) (script_dir w) (stdin w) l (log w) (now w).
Definition with_log (w : world) (l : list string) : world :=
  World (fs w) (cwd w) (script_dir w) (stdin w) (stdout w) l (now w).

(** Python exceptions: the class and [str(e)]. *)
Inductive exc_type :=
| FileNotFoundError
| FileExistsError
| IsADirectoryError
| NotADirectoryError
| SameFileError
| OSError
| EOFError
| OtherError (name : string).

Record exc := Exc { exc_class : exc_type; exc_str : string }.

Inductive result (A : Type) :=
| Val (a : A)
| Raise (e : exc).
Arguments Val {A} a.
Arguments Raise {A} e.

(** A Python computation: it ends with a value or with an exception, and
    in both cases leaves a world behind. *)
Definition M (A : Type) : Type := world -> result A * world.

Definition ret {A} (a : A) : M A := fun w => (Val a, w).

Definition bind {A B} (c : M A) (k : A -> M B) : M B :=
  fun w =>
    match c w with
    | (Val a, w') => k a w'
    | (Raise e, w') => (Raise e, w')
    end.

Definition raise {A} (e : exc) : M A := fun w => (Raise e, w).

(** Read the world without changing it. *)
Definition ask {A} (f : world -> A) : M A := fun w => (Val (f w), w).

(** Change the world. *)
Definition modify (f : world -> world) : M unit := fun w => (Val tt, f w).

(** [try: c  except: h(e)] with a bare [except]. *)
Definition try_except {A} (c : M A) (h : exc -> M A) : M A :=
  fun w =>
    match c w with
    | (Val a, w') => (Val a, w')
    | (Raise e, w') => h e w'
    end.

(** [for x in l: body(x)] *)
Fixpoint for_each {A} (l : list A) (body : A -> M unit) : M unit :=
  match l with
  | [] => ret tt
  | x :: r => bind (body x) (fun _ => for_each r body)
  end.

(** [[f(x) for x in l]] *)
Fixpoint map_m {A B} (f : A -> M B) (l : list A) : M (list B) :=
  match l with
  | [] => ret []
  | x :: r => bind (f x) (fun y => bind (map_m f r) (fun ys => ret (y :: ys)))
  end.

(** [repr(s)] of a string without quotes or escapes in it. *)
Definition repr (s : string) : string := "'" +:+ s +:+ "'".

Inductive errno := ENOENT | ELOOP.

Definition os_error (e : errno) (p : string) : exc :=
  match e with
  | ENOENT => Exc FileNotFoundError ("[Errno 2] No such file or directory: " +:+ repr p)
  | ELOOP => Exc OSError ("[Errno 40] Too many levels of symbolic links: " +:+ repr p)
  end.

Definition key_of (w : world) (p : string) : key := key_from (cwd w) p.

(** [os.lstat]: the name itself, a symbolic link is not followed. *)
Definition lstat (w : world) (p : string) : option node :=
  if bool_decide (p = "") then None else fs w !! key_of w p.

(** Where following the symbolic links at the end of a path leads. *)
Inductive resolved :=
| Found (k : key) (n : node)
| Missing (k : key)
| Failed (e : errno).

(** The kernel gives up after 40 links. *)
Definition MAXSYMLINKS : nat := 40.

Fixpoint follow (fuel : nat) (m : gmap key node) (k : key) : resolved :=
  match m !! k with
  | None => Missing k
  | Some (Symlink t) =>
      if bool_decide (t = "") then Failed ENOENT
      else match fuel with
           | O => Failed ELOOP
           | S fuel' => follow fuel' m (key_from (removelast k) t)
           end
  | Some n => Found k n
  end.

(** [os.stat]: symbolic links at the end of the path are followed. *)
Definition stat (w : world) (p : string) : resolved :=
  if bool_decide (p = "") then Failed ENOENT
  else follow MAXSYMLINKS (fs w) (key_of w p).

(** [os.path.isdir] *)
Definition isdir (w : world) (p : string) : bool :=
  match stat w p with
  | Found _ (Dir _) => true
  | _ => false
  end.

(** [os.path.isfile] *)
Definition isfile (w : world) (p : string) : bool :=
  match stat w p with
  | Found _ (File _ _) => true
  | _ => false
  end.

(** [os.path.lexists] *)
Definition lexists (w : world) (p : string) : bool :=
  match lstat w p with
  | Some _ => true
  | None => false
  end.

(** Is the directory a new name goes into there? *)
Definition dir_at (m : gmap key node) (k : key) : bool :=
  match follow MAXSYMLINKS m k with
  | Found _ (Dir _) => true
  | _ => false
  end.

(** [os.path.getmtime] *)
Definition getmtime (p : string) : M Z :=
  fun w =>
    match stat w p with
    | Found _ (Dir t) => (Val t, w)
    | Found _ (File _ t) => (Val t, w)
    | Found _ (Symlink _) => (Raise (os_error ELOOP p), w)
    | Missing _ => (Raise (os_error ENOENT p), w)
    | Failed e => (Raise (os_error e p), w)
    end.

(** [print(line)] *)
Definition print (line : string) : M unit :=
  modify (fun w => with_stdout w (stdout w ++ [line])).

(** [input()] *)
Definition input : M string :=
  fun w =>
    match stdin w with
    | line :: rest => (Val line, with_stdin w rest)
    | [] => (Raise (Exc EOFError "EOF when reading a line"), w)
    end.

(** [logger.error(msg)], with the handler that [logging.basicConfig]
    installs for the format ["%(message)s"]. *)
Definition logger_error (msg : string) : M unit :=
  modify (fun w => with_log w (log w ++ [msg])).

Notation "'let*' x := c 'in' k" := (bind c (fun x => k))
  (at level 10, x name, c at level 100, k at level 200).

(** *** Directories and [glob] *)

(** A key cut into the directory and the name in it. *)
Definition parent_and_name (k : key) : option (key * string) :=
  match reverse k with
  | name :: r => Some (reverse r, name)
  | [] => None
  end.

(** The names in the directory at [d]. *)
Definition children (m : gmap key node) (d : key) : list string :=
  omap (fun kn : key * node =>
          match parent_and_name (fst kn) with
          | Some (d', name) => if bool_decide (d' = d) then Some name else None
          | None => None
          end)
       (map_to_list m).

(** [glob._listdir]: the names [os.scandir] yields, none when the
    directory cannot be read; with [dironly] only those that are
    directories. *)
Definition listdir (w : world) (dirname : string) (dironly : bool) : list string :=
  let d := if bool_decide (dirname = "") then "." else dirname in
  if isdir w d then
    filter (fun name => negb dironly || isdir w (join d [name]) = true)
           (children (fs w) (key_of w d))
  else [].

(** [glob.has_magic] *)
Fixpoint has_magic (s : string) : bool :=
  match s with
  | EmptyString => false
  | String c r =>
      bool_decide (c = "*"%char) || bool_decide (c = "?"%char)
      || bool_decide (c = "["%char) || has_magic r
  end.

(** [glob._ishidden] *)
Definition ishidden (name : string) : bool :=
  match name with
  | String c _ => bool_decide (c = "."%char)
  | EmptyString => false
  end.

(** [fnmatch.fnmatchcase] for patterns made of [*], [?] and literal
    characters.  A bracket expression is not interpreted; the patterns
    that [collect_images] builds for the last component have none. *)
Fixpoint fnmatch_star (rest : string -> bool) (name : string) : bool :=
  rest name ||
  match name with
  | EmptyString => false
  | String _ r => fnmatch_star rest r
  end.

Fixpoint fnmatch (pat : string) : string -> bool :=
  match pat with
  | EmptyString => fun name => bool_decide (name = "")
  | String c pat' =>
      if bool_decide (c = "*"%char) then fnmatch_star (fnmatch pat')
      else fun name =>
             match name with
             | EmptyString => false
             | String d r =>
                 (bool_decide (c = "?"%char) || bool_decide (c = d)) && fnmatch pat' r
             end
  end.

(** [glob._glob1] *)
Definition glob1 (w : world) (dirname pattern : string) (dironly : bool) : list string :=
  let names := listdir w dirname dironly in
  let names := if ishidden pattern then names
               else filter (fun x => ishidden x = false) names in
  filter (fun x => fnmatch pattern x = true) names.

(** [glob._glob0] *)
Definition glob0 (w : world) (dirname basename : string) (dironly : bool) : list string :=
  if bool_decide (basename = "") then
    if isdir w dirname then [basename] else []
  else
    if lexists w (join dirname [basename]) then [basename] else [].

(** [glob._iglob] without [recursive]; the recursion is on the
    directory part, which is shorter than the path. *)
Fixpoint iglob (fuel : nat) (w : world) (pathname : string) (dironly : bool) : list string :=
  match fuel with
  | O => []
  | S fuel' =>
      let '(dirname, basename) := split pathname in
      if negb (has_magic pathname) then
        if negb (bool_decide (basename = "")) then
          if lexists w pathname then [pathname] else []
        else
          if isdir w dirname then [pathname] else []
      else if bool_decide (dirname = "") then
        glob1 w dirname basename dironly
      else
        let dirs :=
          if negb (bool_decide (dirname = pathname)) && has_magic dirname
          then iglob fuel' w dirname true
          else [dirname] in
        let glob_in_dir := if has_magic basename then glob1 else glob0 in
        mbind (M := list) (fun d => (fun name => join d [name]) <$> glob_in_dir w d basename dironly) dirs
  end.

(** [glob.glob(pathname)] *)
Definition glob (pathname : string) : M (list string) :=
  ask (fun w => iglob (S (String.length pathname)) w pathname false).

(** *** Changing the file system *)

(** [os.remove] *)
Definition remove (p : string) : M unit :=
  fun w =>
    match lstat w p with
    | None => (Raise (os_error ENOENT p), w)
    | Some (Dir _) =>
        (Raise (Exc IsADirectoryError ("[Errno 21] Is a directory: " +:+ repr p)), w)
    | Some _ => (Val tt, with_fs w (delete (key_of w p) (fs w)))
    end.

(** [os.mkdir] of the directory at [k]; [p] is the path for the message. *)
Definition mkdir_at (k : key) (p : string) : M unit :=
  fun w =>
    match fs w !! k with
    | Some _ => (Raise (Exc FileExistsError ("[Errno 17] File exists: " +:+ repr p)), w)
    | None =>
        match follow MAXSYMLINKS (fs w) (removelast k) with
        | Found _ (Dir _) => (Val tt, with_fs w (<[k := Dir (now w)]> (fs w)))
        | Found _ _ =>
            (Raise (Exc NotADirectoryError ("[Errno 20] Not a directory: " +:+ repr p)), w)
        | Missing _ => (Raise (os_error ENOENT p), w)
        | Failed e => (Raise (os_error e p), w)
        end
    end.

(** [os.path.exists].  Like every lookup here it reads the path as
    [key_from] does: a ".." cancels the name before it, whether or not
    that name exists, where the kernel would ask for it. *)
Definition path_exists (w : world) (p : string) : bool :=
  match stat w p with
  | Found _ _ => true
  | _ => false
  end.

(** [os.mkdir(p)] *)
Definition mkdir (p : string) : M unit :=
  if bool_decide (p = "") then raise (os_error ENOENT p)
  else let* k := ask (fun w => key_of w p) in mkdir_at k p.

(** [os.makedirs(name)] with [exist_ok=False], as [os.py] has it: the
    head of the path is made first when it is missing, a
    [FileExistsError] from there is passed over, and a path that ends in
    "." is done with its head; then comes [mkdir(name)], whose errors are
    not caught.  The recursion is on the head, which is shorter than the
    path. *)
Fixpoint makedirs_rec (fuel : nat) (name : string) : M unit :=
  match fuel with
  | O => raise (Exc (OtherError "RecursionError") "maximum recursion depth exceeded")
  | S fuel' =>
      let '(head, tail) := split name in
      let '(head, tail) := if bool_decide (tail = "") then split head else (head, tail) in
      let* head_missing := ask (fun w => negb (path_exists w head)) in
      let* stop :=
        (if negb (bool_decide (head = "")) && negb (bool_decide (tail = "")) && head_missing
         then
           let* _ := try_except (makedirs_rec fuel' head)
                       (fun e => match exc_class e with
                                 | FileExistsError => ret tt
                                 | _ => raise e
                                 end) in
           ret (bool_decide (tail = "."))
         else ret false) in
      if stop : bool then ret tt else mkdir name
  end.

Definition makedirs (name : string) : M unit :=
  makedirs_rec (S (String.length name)) name.

(** [os.symlink(src, dst)] *)
Definition symlink (src dst : string) : M unit :=
  fun w =>
    let msg := repr src +:+ " -> " +:+ repr dst in
    match lstat w dst with
    | Some _ => (Raise (Exc FileExistsError ("[Errno 17] File exists: " +:+ msg)), w)
    | None =>
        if bool_decide (dst = "") || bool_decide (src = "")
           || negb (dir_at (fs w) (removelast (key_of w dst)))
        then (Raise (Exc FileNotFoundError ("[Errno 2] No such file or directory: " +:+ msg)), w)
        else (Val tt, with_fs w (<[key_of w dst := Symlink src]> (fs w)))
    end.

(** [os.path.samefile], [False] when a [stat] fails ([shutil._samefile]) *)
Definition samefile (w : world) (src dst : string) : bool :=
  match stat w src, stat w dst with
  | Found k1 _, Found k2 _ => bool_decide (k1 = k2)
  | _, _ => false
  end.

(** [open(src, 'rb').read()] *)
Definition read_bytes (src : string) : M string :=
  fun w =>
    match stat w src with
    | Found _ (File data _) => (Val data, w)
    | Found _ _ =>
        (Raise (Exc IsADirectoryError ("[Errno 21] Is a directory: " +:+ repr src)), w)
    | Missing _ => (Raise (os_error ENOENT src), w)
    | Failed e => (Raise (os_error e src), w)
    end.

(** [open(dst, 'wb').write(data)]: an existing file is replaced, also
    through symbolic links; a name that does not exist is created. *)
Definition write_bytes (dst : string) (data : string) : M unit :=
  fun w =>
    match stat w dst with
    | Found k (File _ _) => (Val tt, with_fs w (<[k := File data (now w)]> (fs w)))
    | Found _ _ =>
        (Raise (Exc IsADirectoryError ("[Errno 21] Is a directory: " +:+ repr dst)), w)
    | Missing k =>
        if dir_at (fs w) (removelast k)
        then (Val tt, with_fs w (<[k := File data (now w)]> (fs w)))
        else (Raise (os_error ENOENT dst), w)
    | Failed e => (Raise (os_error e dst), w)
    end.

(** [shutil.copyfile(src, dst)] *)
Definition copyfile (src dst : string) : M unit :=
  let* same := ask (fun w => samefile w src dst) in
  if same : bool then
    raise (Exc SameFileError (repr src +:+ " and " +:+ repr dst +:+ " are the same file"))
  else
    let* data := read_bytes src in
    write_bytes dst data.

(** *** [sorted(l, key=f)] *)

(** Insertion behind every element whose key is not larger: the sort
    is stable, as Python's is. *)
Fixpoint insert_by_key (x : Z * string) (l : list (Z * string)) : list (Z * string) :=
  match l with
  | [] => [x]
  | y :: r => if (fst x <? fst y)%Z then x :: y :: r else y :: insert_by_key x r
  end.

Definition sort_by_key (l : list (Z * string)) : list (Z * string) :=
  foldl (fun acc x => insert_by_key x acc) [] l.

(** [sorted(l, key=f)]: the keys are computed first, in the order of
    [l], then the elements are put in ascending order of their keys. *)
Definition sorted (l : list string) (f : string -> M Z) : M (list string) :=
  let* keys := map_m f l in
  ret (snd <$> sort_by_key (zip keys l)).

End Os.

(** ** sunset.py *)

Module Sunset.
Import Str Path Os.

(** The values of the [settings] module that [sunset.py] itself reads;
    the import is taken to succeed. *)
Record settings := Settings {
  TARGET_DIRECTORY : string
}.

(** The namespace that [argparse] builds for [collect-images]. *)
Record collect_args := CollectArgs {
  offset : Z;
  target : string;
  subdir : string;
  purge : bool;
  silent : bool;
  copy : bool
}.

(** [init()] *)
Definition init : M unit :=
  let* sys_path_0 := ask script_dir in
  let path := join sys_path_0 ["settings.py"] in
  let* present := ask (fun w => isfile w path) in
  if negb present then
    let template := join sys_path_0 ["sample_settings.py"] in
    let* _ := copyfile template path in
    print "Created settings.py module from sample."
  else ret tt.

Section Collect.
Variable cfg : settings.
Variable args : collect_args.

Definition source_dir : string := TARGET_DIRECTORY cfg.

(** line 83 *)
Definition target_dir : string :=
  if isabs (target args) then target args
  else join source_dir [target args].

(** line 102 *)
Definition pattern : string :=
  join source_dir [subdir args; "*" +:+ format_plus_d (offset args) +:+ ".jpg"].

(** line 108 *)
Definition target_path (index : nat) : string :=
  join target_dir [format_d index +:+ ".jpg"].

(** line 105 *)
Definition perform_operation : string -> string -> M unit :=
  if copy args then copyfile else symlink.

(** Lines 89 to 100, the body of [if args.purge].  The result says
    whether the function goes on: [false] is the [return] of line 98. *)
Definition purge_target : M bool :=
  let* g := glob (join target_dir ["*"]) in
  let count := length g in
  if (0 <? count)%nat then
    let* go :=
      (if negb (silent args) then
         let* _ := print ("All files in target directory " +:+ target_dir
                          +:+ " will be deleted.") in
         let* _ := print "Do you want to continue? (y/n)" in
         let* answer := input in
         if negb (bool_decide (lower answer = "y")) then
           let* _ := print "Operation cancelled." in
           ret false
         else ret true
       else ret true) in
    if go : bool then
      let* _ := for_each g remove in
      ret true
    else ret false
  else ret true.

(** Lines 85 to 100: the target directory is made and purged. *)
Definition prepare : M bool :=
  let* present := ask (fun w => isdir w target_dir) in
  let* _ := (if negb present then makedirs target_dir else ret tt) in
  if purge args then purge_target else ret true.

(** Lines 107 to 110, the body of the loop. *)
Definition link_one (item : nat * string) : M unit :=
  let '(index, path) := item in
  let* _ := print (target_path index) in
  perform_operation path (target_path index).

(** Lines 102 to 116: the files are found, ordered and linked. *)
Definition link_files : M unit :=
  let* found := glob pattern in
  let* files := sorted found getmtime in
  let count := length files in
  if (0 <? count)%nat then
    let* _ := for_each (imap pair files) link_one in
    if copy args then
      print ("Successfully copied " +:+ format_d count +:+ " files to "
             +:+ target_dir +:+ ".")
    else
      print ("Successfully created " +:+ format_d count +:+ " symlinks to "
             +:+ target_dir +:+ ".")
  else print "No files found to be processed.".

(** [collect_images(args)] *)
Definition collect_images : M unit :=
  let* source_present := ask (fun w => isdir w source_dir) in
  if source_present : bool then
    let* go := prepare in
    if go : bool then link_files else ret tt
  else print "Source directory defined in settings does not exist.".

End Collect.

(** What the command line selects: the [func] that [set_defaults] stored
    and the arguments of its sub-parser. *)
Inductive action :=
| ShowTime (event : string)
| RunCommands (execute : bool)
| CollectImages (args : collect_args).

Section Dispatch.
Variable cfg : settings.

(** The statements of [show_time] after [init()] (lines 50 to 74) and of
    [run_commands] after [init()] (lines 33 to 43).  They call the
    modules [settings], [calc] and [astral] and, in [run_commands],
    the shell; none of these is part of [sunset.py]. *)
Variable show_time_rest : string -> M unit.
Variable run_commands_rest : bool -> M unit.

(** The text that [parser.print_help()] writes. *)
Variable help_text : string.

(** [show_time(args)] *)
Definition show_time (event : string) : M unit :=
  let* _ := init in
  show_time_rest event.

(** [run_commands(args)] *)
Definition run_commands (execute : bool) : M unit :=
  let* _ := init in
  run_commands_rest execute.

(** [args.func(args)] *)
Definition func (a : action) : M unit :=
  match a with
  | ShowTime event => show_time event
  | RunCommands execute => run_commands execute
  | CollectImages args => collect_images cfg args
  end.

(** [main()], from the parsed command line on; [None] is a command
    line without an action. *)
Definition main (parsed : option action) : M unit :=
  match parsed with
  | None => print help_text
  | Some a =>
      try_except (func a)
        (fun e => logger_error ("Operation failed: " +:+ exc_str e))
  end.

(** The exit status of the interpreter for lines 169 to 171: 0 when
    [main()] returns, 1 when an exception leaves it. *)
Definition exit_status (parsed : option action) (w : world) : Z :=
  match main parsed w with
  | (Val _, _) => 0
  | (Raise _, _) => 1
  end.

End Dispatch.

End Sunset.

(** ** Notions used in the statements *)

Module Spec.
Import Str Path Os Sunset.

(** A name that one directory entry can have. *)
Definition simple_name (name : string) : Prop :=
  has_slash name = false /\ name <> "" /\ name <> "." /\ name <> "..".

(** What [perform_operation] leaves at the new name for the source [p]. *)
Definition made (copy_mode : bool) (w : world) (p : string) : option node :=
  if copy_mode then
    match stat w p with
    | Found _ (File data _) => Some (File data (now w))
    | _ => None
    end
  else if bool_decide (p = "") then None else Some (Symlink p).

(** The order of [sorted]: by the key alone. *)
Definition key_le (x y : Z * string) : Prop := (fst x <= fst y)%Z.

(** Every run of [c], whether it returns or raises, takes a world to one
    that [R] relates to it. *)
Definition steps (R : world -> world -> Prop) {A} (c : M A) : Prop :=
  forall w r w', c w = (r, w') -> R w w'.

(** No regular file is written: one that is there afterwards was there
    before, with the same content and time. *)
Definition keeps_files (w w' : world) : Prop :=
  forall k d t, fs w' !! k = Some (File d t) -> fs w !! k = Some (File d t).

(** Nothing changes but for new symbolic links at the numbered names of
    the target directory. *)
Definition only_links (cfg : settings) (args : collect_args) (w w' : world) : Prop :=
  cwd w' = cwd w
  /\ forall k, fs w' !! k = fs w !! k
              \/ (fs w !! k = None
                  /\ (exists i, k = key_of w (target_path cfg args i))
                  /\ exists s, fs w' !! k = Some (Symlink s)).

(** Nothing changes but for regular files written at the time of the
    run, each at a name that was free or held a regular file. *)
Definition only_copies (w w' : world) : Prop :=
  now w' = now w
  /\ forall k, fs w' !! k = fs w !! k
              \/ ((exists data, fs w' !! k = Some (File data (now w)))
                  /\ (fs w !! k = None \/ exists d t, fs w !! k = Some (File d t))).

(** None of the numbered names of the target directory is a symbolic
    link. *)
Definition plain_targets (cfg : settings) (args : collect_args) (w : world) : Prop :=
  forall i s, fs w !! key_of w (target_path cfg args i) <> Some (Symlink s).

(** As long as none of the numbered names is a symbolic link, regular
    files are written under the numbered names only. *)
Definition writes_numbered (cfg : settings) (args : collect_args) (w w' : world) : Prop :=
  plain_targets cfg args w ->
  cwd w' = cwd w
  /\ plain_targets cfg args w'
  /\ forall k d t, fs w' !! k = Some (File d t) ->
       fs w !! k = Some (File d t) \/ exists i, k = key_of w (target_path cfg args i).

(** The places that paths are read from stay the same. *)
Definition same_place (w w' : world) : Prop :=
  cwd w' = cwd w /\ script_dir w' = script_dir w.

(** Every name in the file system is one that a directory entry can
    have. *)
Definition well_named (m : gmap key node) : Prop :=
  forall k, is_Some (m !! k) -> Forall simple_name k.

(** No directory is removed or replaced. *)
Definition keeps_dirs (w w' : world) : Prop :=
  forall k t, fs w !! k = Some (Dir t) -> fs w' !! k = Some (Dir t).

(** Nothing is read from standard input and nothing is logged. *)
Definition quiet (w w' : world) : Prop :=
  stdin w' = stdin w /\ log w' = log w.

End Spec.

(** ** Worlds to run the program in *)

Module Examples.
Import Str Path Os Sunset.

(** A camera directory with five pictures of index +1 and one of index +2,
    a hidden file, an output directory left by an earlier run, and the
    directory of the script. *)
Definition fs_demo : gmap key node :=
  list_to_map
    [ ([], Dir 0);
      (["srv"], Dir 0);
      (["srv"; "img"], Dir 1);
      (["srv"; "img"; "a+1.jpg"], File "AAA" 30);
      (["srv"; "img"; "b+1.jpg"], File "BBB" 10);
      (["srv"; "img"; "c+1.jpg"], File "CCC" 20);
      (["srv"; "img"; "d+1.jpg"], File "DDD" 50);
      (["srv"; "img"; "e+1.jpg"], File "EEE" 40);
      (["srv"; "img"; "c+2.jpg"], File "CC2" 21);
      (["srv"; "img"; ".h+1.jpg"], File "HHH" 5);
      (["srv"; "img"; "out"], Dir 2);
      (["srv"; "img"; "out"; "0.jpg"], Symlink "/srv/img/b+1.jpg");
      (["srv"; "img"; "out"; "notes.txt"], File "keep" 6);
      (["srv"; "img"; "new"], Dir 3);
      (["opt"], Dir 0);
      (["opt"; "sunset"], Dir 0);
      (["opt"; "sunset"; "sample_settings.py"], File "TARGET_DIRECTORY = '/srv/img'" 4) ].

Definition w_demo : world :=
  World fs_demo ["home"; "pi"] "/opt/sunset" [] [] [] 100.

(** The same, with a picture of index +1 that is a symbolic link to a
    file that is gone. *)
Definition w_stale : world :=
  with_fs w_demo (<[ ["srv"; "img"; "z+1.jpg"] := Symlink "/srv/img/gone.jpg" ]> fs_demo).

(** The same, with a file in the output directory whose name starts with
    a dot. *)
Definition w_dot : world :=
  with_fs w_demo (<[ ["srv"; "img"; "out"; ".keep"] := File "kept" 7 ]> fs_demo).

Definition cfg_demo : settings := Settings "/srv/img".

(** [collect-images --offset 1 --target new] *)
Definition args_new : collect_args := CollectArgs 1 "new" "" false false false.

(** [collect-images --offset 1 --target out] *)
Definition args_out : collect_args := CollectArgs 1 "out" "" false false false.

(** [collect-images --offset 1 --target out --purge] *)
Definition args_purge : collect_args := CollectArgs 1 "out" "" true false false.

(** [collect-images --offset 1 --target new --copy] *)
Definition args_copy : collect_args := CollectArgs 1 "new" "" false false true.

(** [collect-images --offset 1 --target out --purge --silent --copy] *)
Definition args_purge_copy : collect_args := CollectArgs 1 "out" "" true true true.

(** [collect-images --offset 1 --target out --purge --silent] *)
Definition args_purge_silent : collect_args := CollectArgs 1 "out" "" true true false.

(** [collect-images --offset 7 --target new] *)
Definition args_none : collect_args := CollectArgs 7 "new" "" false false false.

End Examples.

(** * Properties *)

Import Str Path Os Sunset Spec Examples.

(** ** The monad *)

Lemma bind_val {A B} (c : M A) (k : A -> M B) w a w' :
  c w = (Val a, w') -> bind c k w = k a w'.
Proof. unfold bind. by intros ->. Qed.

Lemma bind_raise {A B} (c : M A) (k : A -> M B) w e w' :
  c w = (Raise e, w') -> bind c k w = (Raise e, w').
Proof. unfold bind. by intros ->. Qed.


Lemma bind_ask {A B} (f : world -> A) (k : A -> M B) w : bind (ask f) k w = k (f w) w.
Proof. reflexivity. Qed.
Lemma bind_ret {A B} (a : A) (k : A -> M B) w : bind (ret a) k w = k a w.
Proof. reflexivity. Qed.
Lemma bind_print {B} s (k : unit -> M B) w :
  bind (print s) k w = k tt (with_stdout w (stdout w ++ [s])).
Proof. reflexivity. Qed.
Lemma bind_assoc {A B C} (c : M A) (f : A -> M B) (g : B -> M C) w :
  bind (bind c f) g w = bind c (fun a => bind (f a) g) w.
Proof. unfold bind. destruct (c w) as [[a|e] w']; reflexivity. Qed.

Ltac mstep :=
  repeat first
    [ rewrite bind_assoc | rewrite bind_ask | rewrite bind_ret | rewrite bind_print ].


(** ** Strings and paths, the file system *)

Lemma append_cons c a b : String c a +:+ b = String c (a +:+ b).
Proof. reflexivity. Qed.
Lemma append_nil b : "" +:+ b = b.
Proof. reflexivity. Qed.

Lemma append_assoc a b c : (a +:+ b) +:+ c = a +:+ (b +:+ c).
Proof. induction a as [|x a IH]; [done|]. by rewrite !append_cons, IH. Qed.

Lemma split_slash_nonempty s : split_slash s <> [].
Proof.
  destruct s as [|c r]; simpl; [done|].
  destruct (is_slash c); [done|]. by destruct (split_slash r).
Qed.

Lemma split_slash_app a b :
  split_slash (a +:+ String slash b) = split_slash a ++ split_slash b.
Proof.
  induction a as [|c a IH]; [reflexivity|].
  rewrite append_cons. simpl.
  - destruct (is_slash c); [by rewrite IH|].
    rewrite IH. pose proof (split_slash_nonempty a).
    by destruct (split_slash a).
Qed.

Lemma split_slash_plain s : has_slash s = false -> split_slash s = [s].
Proof.
  induction s as [|c r IH]; simpl; [done|].
  intros [Hc Hr]%orb_false_iff. rewrite Hc, (IH Hr). done.
Qed.

Lemma ends_with_slash_inv s :
  ends_with_slash s = true -> exists s', s = s' +:+ String slash "".
Proof.
  induction s as [|c r IH]; simpl; [done|].
  destruct r as [|c' r'].
  - unfold is_slash. intros ->%bool_decide_eq_true. by exists "".
  - intros [s' Hs']%IH. exists (String c s'). rewrite Hs'. reflexivity.
Qed.

Lemma isabs_app a b : a <> "" -> isabs (a +:+ b) = isabs a.
Proof. by destruct a. Qed.

Lemma foldl_norm_step_empty acc : foldl norm_step acc [""] = acc.
Proof. reflexivity. Qed.

Lemma key_from_join2 base d t :
  starts_with_slash t = false ->
  key_from base (join2 d t) = foldl norm_step (key_from base d) (split_slash t).
Proof.
  intros Ht. unfold join2. rewrite Ht.
  case_bool_decide as Hd.
  - subst d. rewrite orb_true_l, append_nil. unfold key_from, isabs. rewrite Ht. done.
  - rewrite orb_false_l. destruct (ends_with_slash d) eqn:He.
    + apply ends_with_slash_inv in He as [s' ->].
      unfold key_from. rewrite isabs_app by done.
      rewrite append_assoc, append_cons, append_nil.
      rewrite !split_slash_app, !foldl_app. done.
    + unfold key_from. rewrite isabs_app by done.
      change (d +:+ "/" +:+ t) with (d +:+ String slash t).
      by rewrite split_slash_app, foldl_app.
Qed.


Lemma simple_name_not_abs name : has_slash name = false -> starts_with_slash name = false.
Proof. destruct name as [|c r]; simpl; [done|]. by intros [? ?]%orb_false_iff. Qed.

Lemma key_from_join_name base d name :
  simple_name name ->
  key_from base (join d [name]) = key_from base d ++ [name].
Proof.
  intros (Hs & H1 & H2 & H3). simpl.
  rewrite key_from_join2 by by apply simple_name_not_abs.
  rewrite split_slash_plain by done. simpl. unfold norm_step.
  by rewrite !bool_decide_false.
Qed.


Lemma pretty_N_char_digit x : is_digit (pretty_N_char x) = true.
Proof. unfold pretty_N_char. by repeat case_match. Qed.

Lemma pretty_N_go_digits x s :
  digits_only s = true -> digits_only (pretty_N_go x s) = true.
Proof.
  revert s. induction (N.lt_wf_0 x) as [x _ IH]; intros s Hs.
  destruct (decide (x = 0)%N) as [->|Hx]; [by rewrite pretty_N_go_0|].
  rewrite pretty_N_go_step by lia. apply IH; [apply N.div_lt; lia|].
  simpl. by rewrite pretty_N_char_digit.
Qed.

Lemma pretty_N_go_nonempty x s : (0 < x)%N -> pretty_N_go x s <> "".
Proof.
  intros Hx. rewrite pretty_N_go_step by done.
  generalize (pretty_N_char (x `mod` 10)). generalize (x `div` 10)%N.
  intros y. revert s. induction (N.lt_wf_0 y) as [y _ IH]; intros s c.
  destruct (decide (y = 0)%N) as [->|Hy]; [by rewrite pretty_N_go_0|].
  rewrite pretty_N_go_step by lia. apply IH. apply N.div_lt; lia.
Qed.

Lemma pretty_N_digits (x : N) : digits_only (pretty x) = true /\ pretty x <> "".
Proof.
  unfold pretty, pretty_N. case_decide; [done|]. split.
  - by apply pretty_N_go_digits.
  - apply pretty_N_go_nonempty. lia.
Qed.

Lemma format_d_digits n : digits_only (format_d n) = true /\ format_d n <> "".
Proof. apply pretty_N_digits. Qed.

Lemma format_d_inj n m : format_d n = format_d m -> n = m.
Proof. unfold format_d. intros H. apply (inj pretty) in H. lia. Qed.

(** Facts about a digit. *)
Lemma is_digit_not c d : is_digit d = false -> is_digit c = true -> c <> d.
Proof. congruence. Qed.

Lemma digits_only_app a b :
  digits_only (a +:+ b) = digits_only a && digits_only b.
Proof.
  induction a as [|c a IH]; [done|]. rewrite append_cons. simpl.
  by rewrite IH, andb_assoc.
Qed.

Lemma has_slash_app a b : has_slash (a +:+ b) = has_slash a || has_slash b.
Proof.
  induction a as [|c a IH]; [done|]. rewrite append_cons. simpl.
  by rewrite IH, orb_assoc.
Qed.

Lemma has_magic_app a b : has_magic (a +:+ b) = has_magic a || has_magic b.
Proof.
  induction a as [|c a IH]; [done|]. rewrite append_cons. simpl.
  rewrite IH. by rewrite !orb_assoc.
Qed.

Lemma digits_no_slash s : digits_only s = true -> has_slash s = false.
Proof.
  induction s as [|c r IH]; [done|]. simpl. intros [Hc Hr]%andb_true_iff.
  rewrite (IH Hr), orb_false_r. unfold is_slash. apply bool_decide_eq_false.
  intros ->. done.
Qed.

Lemma digits_no_magic s : digits_only s = true -> has_magic s = false.
Proof.
  induction s as [|c r IH]; [done|]. simpl. intros [Hc Hr]%andb_true_iff.
  rewrite (IH Hr), orb_false_r.
  rewrite !bool_decide_false; [done|intros ->; done..].
Qed.

Lemma format_plus_d_no_magic z : has_magic (format_plus_d z) = false.
Proof.
  destruct z as [|p|p]; [done|..]; unfold format_plus_d;
    rewrite append_cons, append_nil; cbn [has_magic];
    rewrite digits_no_magic by apply pretty_N_digits; done.
Qed.

Lemma format_plus_d_no_slash z : has_slash (format_plus_d z) = false.
Proof.
  destruct z as [|p|p]; [done|..]; unfold format_plus_d;
    rewrite append_cons, append_nil; cbn [has_slash];
    rewrite digits_no_slash by apply pretty_N_digits; done.
Qed.


Lemma jpg_name_simple n : simple_name (format_d n +:+ ".jpg").
Proof.
  destruct (format_d_digits n) as [Hd Hne].
  destruct (format_d n) as [|c r] eqn:E; [done|].
  simpl in Hd. apply andb_true_iff in Hd as [Hc Hr].
  repeat split.
  - rewrite has_slash_app. change (String c r) with (String c "" +:+ r).
    rewrite has_slash_app, (digits_no_slash r Hr). simpl.
    unfold is_slash. rewrite bool_decide_false; [done|]. by intros ->.
  - done.
  - rewrite append_cons. intros [= -> _]. done.
  - rewrite append_cons. intros [= -> _]. done.
Qed.

Lemma jpg_name_visible n : ishidden (format_d n +:+ ".jpg") = false.
Proof.
  destruct (format_d_digits n) as [Hd Hne].
  destruct (format_d n) as [|c r] eqn:E; [done|].
  simpl in Hd. apply andb_true_iff in Hd as [Hc Hr].
  rewrite append_cons. simpl. apply bool_decide_eq_false. by intros ->.
Qed.

Lemma append_length a b : String.length (a +:+ b) = String.length a + String.length b.
Proof. induction a as [|c a IH]; [done|]. rewrite append_cons. simpl. by rewrite IH. Qed.

Lemma append_cancel_r a b x : a +:+ x = b +:+ x -> a = b.
Proof.
  revert b. induction a as [|c a IH]; intros [|d b] H; [done|..].
  - apply (f_equal String.length) in H. rewrite !append_length in H. simpl in H. lia.
  - apply (f_equal String.length) in H. rewrite !append_length in H. simpl in H. lia.
  - rewrite !append_cons in H. injection H as -> H. f_equal. by apply IH.
Qed.

Lemma jpg_name_inj n m : format_d n +:+ ".jpg" = format_d m +:+ ".jpg" -> n = m.
Proof. intros H. by apply format_d_inj, (append_cancel_r _ _ ".jpg"). Qed.

Lemma parent_and_name_snoc d name : parent_and_name (d ++ [name]) = Some (d, name).
Proof. unfold parent_and_name. by rewrite reverse_snoc, reverse_involutive. Qed.

Lemma parent_and_name_Some k d name :
  parent_and_name k = Some (d, name) -> k = d ++ [name].
Proof.
  unfold parent_and_name. destruct (reverse k) as [|x r] eqn:E; [done|].
  intros [= <- <-]. by rewrite <- (reverse_involutive k), E, reverse_cons.
Qed.

Lemma elem_of_children (m : gmap key node) d name :
  name ∈ children m d <-> is_Some (m !! (d ++ [name])).
Proof.
  unfold children. rewrite list_elem_of_omap. split.
  - intros ([k n] & Hin & Hf). apply elem_of_map_to_list in Hin. simpl in Hf.
    destruct (parent_and_name k) as [[d' nm]|] eqn:E; [|done].
    case_bool_decide; [|done]. injection Hf as ->. subst d'.
    apply parent_and_name_Some in E. subst k. eauto.
  - intros [n Hn]. exists (d ++ [name], n). split; [by apply elem_of_map_to_list|].
    simpl. rewrite parent_and_name_snoc. by rewrite bool_decide_true.
Qed.

Lemma follow_None (fuel : nat) (m : gmap key node) (k : key) : m !! k = None -> follow fuel m k = Missing k.
Proof. intros H. destruct fuel; simpl; by rewrite H. Qed.

Lemma follow_insert_fresh (fuel : nat) (m : gmap key node) (k0 : key) x (k k' : key) n :
  m !! k0 = None ->
  follow fuel m k = Found k' n ->
  follow fuel (<[k0 := x]> m) k = Found k' n.
Proof.
  intros H0. revert k. induction fuel as [|fuel IH]; intros k; simpl.
  - destruct (m !! k) as [nd|] eqn:E; [|done].
    assert (k0 <> k) by congruence. rewrite lookup_insert_ne by done. by rewrite E.
  - destruct (m !! k) as [nd|] eqn:E; [|done].
    assert (k0 <> k) by congruence. rewrite lookup_insert_ne by done. rewrite E.
    destruct nd; try done. case_bool_decide; [done|]. apply IH.
Qed.

Lemma dir_at_insert_fresh (m : gmap key node) (k0 : key) x (k : key) :
  m !! k0 = None -> dir_at m k = true -> dir_at (<[k0 := x]> m) k = true.
Proof.
  unfold dir_at. intros H0.
  destruct (follow MAXSYMLINKS m k) as [k' [t| |]| |] eqn:E; try done.
  by rewrite (follow_insert_fresh _ _ _ _ _ _ _ H0 E).
Qed.


Lemma append_eq_nil a b : a +:+ b = "" -> b = "".
Proof. destruct a; [done|]. by rewrite append_cons. Qed.

Lemma join2_nonempty d b : b <> "" -> join2 d b <> "".
Proof.
  intros Hb. unfold join2. destruct (starts_with_slash b); [done|].
  destruct (_ || _); intros H.
  - by apply append_eq_nil in H.
  - apply append_eq_nil in H. by apply append_eq_nil in H.
Qed.


Lemma stat_with_fs_insert_fresh w k0 x p k n :
  fs w !! k0 = None -> stat w p = Found k n ->
  stat (with_fs w (<[k0 := x]> (fs w))) p = Found k n.
Proof.
  unfold stat. case_bool_decide; [done|]. intros H0 Hf.
  unfold key_of in *. cbn [fs cwd with_fs]. by apply follow_insert_fresh.
Qed.

Lemma made_insert_fresh c w k0 x p n :
  fs w !! k0 = None -> made c w p = Some n ->
  made c (with_fs w (<[k0 := x]> (fs w))) p = Some n.
Proof.
  unfold made. intros H0. destruct c; [|done].
  destruct (stat w p) as [k [| |]| |] eqn:E; try done.
  by rewrite (stat_with_fs_insert_fresh _ _ _ _ _ _ H0 E).
Qed.

Lemma perform_operation_fresh args w p dst n :
  dst <> "" ->
  fs w !! key_of w dst = None ->
  dir_at (fs w) (removelast (key_of w dst)) = true ->
  made (copy args) w p = Some n ->
  perform_operation args p dst w
  = (Val tt, with_fs w (<[key_of w dst := n]> (fs w))).
Proof.
  intros Hdst Hnone Hdir Hmade. unfold perform_operation, made in *.
  destruct (copy args).
  - destruct (stat w p) as [kp [|data t|]| |] eqn:Hp; try done.
    injection Hmade as <-.
    assert (Hd : stat w dst = Missing (key_of w dst)).
    { unfold stat. rewrite bool_decide_false by done. by apply follow_None. }
    unfold copyfile, bind, ask, samefile. rewrite Hp, Hd.
    unfold read_bytes. rewrite Hp. unfold write_bytes. rewrite Hd, Hdir. done.
  - case_bool_decide as Hp; [done|]. injection Hmade as <-.
    unfold symlink, lstat. rewrite !bool_decide_false by done.
    rewrite Hnone. simpl. by rewrite Hdir.
Qed.

(** ** Sorting *)

Lemma insert_by_key_perm x l : insert_by_key x l ≡ₚ x :: l.
Proof.
  induction l as [|y r IH]; simpl; [done|].
  destruct (fst x <? fst y)%Z; [done|]. rewrite IH. apply Permutation_swap.
Qed.

Lemma sort_by_key_from_perm l acc :
  foldl (fun acc x => insert_by_key x acc) acc l ≡ₚ acc ++ l.
Proof.
  revert acc. induction l as [|x l IH]; intros acc; simpl.
  - by rewrite app_nil_r.
  - rewrite IH, insert_by_key_perm. simpl. apply Permutation_middle.
Qed.

Lemma sort_by_key_perm l : sort_by_key l ≡ₚ l.
Proof. apply (sort_by_key_from_perm l []). Qed.


Lemma insert_by_key_sorted x l :
  StronglySorted key_le l -> StronglySorted key_le (insert_by_key x l).
Proof.
  induction l as [|y r IH]; simpl; intros Hs.
  - repeat constructor.
  - apply StronglySorted_inv in Hs as [Hr Hy].
    destruct (fst x <? fst y)%Z eqn:E.
    + apply Z.ltb_lt in E. constructor; [by constructor|].
      constructor; [unfold key_le; lia|].
      eapply Forall_impl; [exact Hy|]. unfold key_le. intros; lia.
    + apply Z.ltb_ge in E. constructor; [by apply IH|].
      rewrite insert_by_key_perm. by constructor.
Qed.

Lemma sort_by_key_sorted l : StronglySorted key_le (sort_by_key l).
Proof.
  unfold sort_by_key. generalize (SSorted_nil key_le).
  generalize (@nil (Z * string)). induction l as [|x l IH]; intros acc Hacc; simpl; [done|].
  apply IH. by apply insert_by_key_sorted.
Qed.





Lemma map_m_getmtime w l ts :
  Forall2 (fun p t => getmtime p w = (Val t, w)) l ts ->
  map_m getmtime l w = (Val ts, w).
Proof.
  induction 1 as [|p t l ts Hp _ IH]; [done|].
  simpl. unfold bind at 1. rewrite Hp. unfold bind at 1. by rewrite IH.
Qed.

Lemma getmtime_nonempty p w t w' : getmtime p w = (Val t, w') -> p <> "".
Proof.
  unfold getmtime, stat. intros H ->. by rewrite bool_decide_true in H.
Qed.

(** ** The loop of [collect_images] *)

Section Loop.
Variable cfg : settings.
Variable args : collect_args.

Let td : string := target_dir cfg args.
Let tp : nat -> string := target_path cfg args.

Lemma key_target_path w i :
  key_of w (tp i) = key_of w td ++ [format_d i +:+ ".jpg"].
Proof. apply key_from_join_name, jpg_name_simple. Qed.

Lemma target_path_nonempty i : tp i <> "".
Proof.
  unfold tp, target_path. simpl. apply join2_nonempty.
  destruct (jpg_name_simple i) as (_ & H & _). done.
Qed.

Lemma key_target_path_inj w i j : key_of w (tp i) = key_of w (tp j) -> i = j.
Proof.
  rewrite !key_target_path. intros H%app_inj_1; [|done].
  destruct H as [_ [= H]]. by apply jpg_name_inj.
Qed.

Lemma link_one_fresh w i p n :
  fs w !! key_of w (tp i) = None ->
  dir_at (fs w) (key_of w td) = true ->
  made (copy args) w p = Some n ->
  link_one cfg args (i, p) w
  = (Val tt, with_fs (with_stdout w (stdout w ++ [tp i])) (<[key_of w (tp i) := n]> (fs w))).
Proof.
  intros Hnone Hdir Hmade. unfold link_one.
  change (target_path cfg args i) with (tp i).
  unfold bind, print, modify.
  rewrite (perform_operation_fresh args _ p (tp i) n); [done|..].
  - apply target_path_nonempty.
  - done.
  - change (key_of (with_stdout w (stdout w ++ [tp i])) (tp i)) with (key_of w (tp i)).
    rewrite key_target_path, removelast_last. done.
  - done.
Qed.

Lemma link_loop files : forall s w,
  dir_at (fs w) (key_of w td) = true ->
  (forall i, i < length files -> fs w !! key_of w (tp (s + i)) = None) ->
  Forall (fun p => is_Some (made (copy args) w p)) files ->
  exists m',
    for_each (imap (fun i => pair (s + i)) files) (link_one cfg args) w
    = (Val tt, with_fs (with_stdout w (stdout w ++ imap (fun i _ => tp (s + i)) files)) m')
    /\ (forall i p, files !! i = Some p ->
          m' !! key_of w (tp (s + i)) = made (copy args) w p)
    /\ (forall k, (forall i, i < length files -> k <> key_of w (tp (s + i))) ->
          m' !! k = fs w !! k).
Proof.
  induction files as [|p files IH]; intros s w Hdir Hfree Hsrc.
  - exists (fs w). simpl. rewrite app_nil_r. split; [by destruct w|]. split; [done|done].
  - apply Forall_cons in Hsrc as [[n Hn] Hsrc].
    assert (H0 : fs w !! key_of w (tp s) = None).
    { specialize (Hfree 0). rewrite Nat.add_0_r in Hfree. apply Hfree. simpl. lia. }
    set (w1 := with_fs (with_stdout w (stdout w ++ [tp s])) (<[key_of w (tp s) := n]> (fs w))).
    destruct (IH (S s) w1) as (m' & Hrun & Hnew & Hold).
    { apply dir_at_insert_fresh; done. }
    { intros i Hi. unfold w1. cbn [fs with_fs]. change (key_of _ ?q) with (key_of w q).
      rewrite lookup_insert_ne.
      - replace (S s + i) with (s + S i) by lia. apply Hfree. simpl. lia.
      - intros E%key_target_path_inj. lia. }
    { eapply Forall_impl; [exact Hsrc|]. intros q [nq Hq]. exists nq.
      unfold w1. apply (made_insert_fresh _ (with_stdout w _)); done. }
    exists m'. split; [|split].
    + rewrite imap_cons. cbn [for_each]. unfold bind at 1.
      rewrite Nat.add_0_r. rewrite (link_one_fresh w s p n) by done. fold w1.
      erewrite (imap_ext _ (fun i => pair (S s + i))).
      2:{ intros i x _. simpl. f_equal. lia. }
      rewrite Hrun. f_equal. unfold w1, with_fs, with_stdout.
      cbn [fs cwd script_dir stdin stdout log now].
      f_equal. rewrite <- app_assoc, imap_cons, Nat.add_0_r. cbn [app]. do 2 f_equal.
      apply imap_ext. intros i x _. simpl. f_equal. lia.
    + intros [|i] q Hq.
      * injection Hq as <-. rewrite Nat.add_0_r.
        change (key_of w (tp s)) with (key_of w1 (tp s)).
        rewrite Hold.
        -- unfold w1. cbn [fs with_fs]. by rewrite lookup_insert_eq, Hn.
        -- intros i Hi E%key_target_path_inj. lia.
      * replace (s + S i) with (S s + i) by lia.
        change (key_of w ?q) with (key_of w1 q). rewrite (Hnew i q Hq).
        destruct (proj1 (Forall_forall _ _) Hsrc q) as [nq Hnq].
        { by eapply list_elem_of_lookup_2. }
        rewrite Hnq. unfold w1. apply (made_insert_fresh _ (with_stdout w _)); done.
    + intros k Hk. rewrite Hold.
      * unfold w1. cbn [fs with_fs]. rewrite lookup_insert_ne; [done|].
        intros <-. specialize (Hk 0). rewrite Nat.add_0_r in Hk. apply Hk; [simpl; lia|done].
      * intros i Hi. change (key_of w1 ?q) with (key_of w q).
        replace (S s + i) with (s + S i) by lia. apply Hk. simpl. lia.
Qed.
End Loop.

(** ** What a run can change *)

Section Steps.
Variable R : world -> world -> Prop.
Hypothesis R_refl : forall w, R w w.
Hypothesis R_trans : forall w1 w2 w3, R w1 w2 -> R w2 w3 -> R w1 w3.
Hypothesis R_stdout : forall w l, R w (with_stdout w l).
Hypothesis R_stdin : forall w l, R w (with_stdin w l).

Lemma steps_ret {A} (a : A) : steps R (ret a).
Proof. intros w r w' [= _ <-]. apply R_refl. Qed.

Lemma steps_raise {A} e : steps R (raise (A := A) e).
Proof. intros w r w' [= _ <-]. apply R_refl. Qed.

Lemma steps_ask {A} (f : world -> A) : steps R (ask f).
Proof. intros w r w' [= _ <-]. apply R_refl. Qed.

Lemma steps_print s : steps R (print s).
Proof. intros w r w' [= _ <-]. apply R_stdout. Qed.

Lemma steps_input : steps R input.
Proof.
  intros w r w'. unfold input. destruct (stdin w); intros [= _ <-]; [apply R_refl|apply R_stdin].
Qed.

Lemma steps_bind {A B} (c : M A) (k : A -> M B) :
  steps R c -> (forall a, steps R (k a)) -> steps R (bind c k).
Proof.
  intros Hc Hk w r w'. unfold bind. destruct (c w) as [[a|e] w1] eqn:E.
  - intros H. eapply R_trans; [by eapply Hc|by eapply Hk].
  - intros [= _ <-]. by eapply Hc.
Qed.

Lemma steps_try_except {A} (c : M A) (h : exc -> M A) :
  steps R c -> (forall e, steps R (h e)) -> steps R (try_except c h).
Proof.
  intros Hc Hh w r w'. unfold try_except. destruct (c w) as [[a|e] w1] eqn:E.
  - intros [= _ <-]. by eapply Hc.
  - intros H. eapply R_trans; [by eapply Hc|by eapply Hh].
Qed.

Lemma steps_for_each {A} (l : list A) (body : A -> M unit) :
  (forall x, steps R (body x)) -> steps R (for_each l body).
Proof.
  intros Hb. induction l as [|x l IH]; simpl; [apply steps_ret|].
  apply steps_bind; [apply Hb|done].
Qed.

Lemma steps_map_m {A B} (f : A -> M B) (l : list A) :
  (forall x, steps R (f x)) -> steps R (map_m f l).
Proof.
  intros Hf. induction l as [|x l IH]; simpl; [apply steps_ret|].
  apply steps_bind; [apply Hf|]. intros y. apply steps_bind; [done|].
  intros ys. apply steps_ret.
Qed.

Lemma steps_getmtime p : steps R (getmtime p).
Proof.
  intros w r w'. unfold getmtime.
  destruct (stat w p) as [k [| |]| |]; intros [= _ <-]; apply R_refl.
Qed.

Lemma steps_glob p : steps R (glob p).
Proof. apply steps_ask. Qed.

Lemma steps_sorted l : steps R (sorted l getmtime).
Proof.
  apply steps_bind; [apply steps_map_m, steps_getmtime|]. intros ks. apply steps_ret.
Qed.

Lemma steps_read_bytes p : steps R (read_bytes p).
Proof.
  intros w r w'. unfold read_bytes.
  destruct (stat w p) as [k [| |]| |]; intros [= _ <-]; apply R_refl.
Qed.

End Steps.

(** ** No regular file is written in link mode *)

Lemma keeps_files_refl w : keeps_files w w.
Proof. by intros k d t. Qed.

Lemma keeps_files_trans w1 w2 w3 : keeps_files w1 w2 -> keeps_files w2 w3 -> keeps_files w1 w3.
Proof. intros H1 H2 k d t H. by apply H1, H2. Qed.

Lemma keeps_files_stdout w l : keeps_files w (with_stdout w l).
Proof. by intros k d t. Qed.

Lemma keeps_files_stdin w l : keeps_files w (with_stdin w l).
Proof. by intros k d t. Qed.

Ltac steps_leaf refl trans out inp :=
  first [ apply (steps_ret _ refl) | apply (steps_raise _ refl) | apply (steps_ask _ refl)
        | apply (steps_print _ out) | apply (steps_input _ refl inp)
        | apply (steps_glob _ refl) | apply (steps_sorted _ refl trans) ].

Ltac steps_step refl trans out inp :=
  first [ steps_leaf refl trans out inp
        | apply (steps_bind _ trans); [try steps_leaf refl trans out inp|]
        | apply (steps_for_each _ refl trans)
        | apply (steps_try_except _ trans); [try steps_leaf refl trans out inp|] ].

Ltac keeps_step :=
  steps_step keeps_files_refl keeps_files_trans keeps_files_stdout keeps_files_stdin.

Lemma keeps_files_remove p : steps keeps_files (remove p).
Proof.
  intros w r w'. unfold remove. destruct (lstat w p) as [[| |]|]; intros [= _ <-];
    try apply keeps_files_refl; intros k d t; cbn [fs with_fs];
    intros H; by apply lookup_delete_Some in H as [_ H].
Qed.

Lemma keeps_files_mkdir_at k p : steps keeps_files (mkdir_at k p).
Proof.
  intros w r w'. unfold mkdir_at. destruct (fs w !! k) eqn:E.
  { intros [= _ <-]. apply keeps_files_refl. }
  destruct (follow _ _ _) as [k1 [| |]| |]; intros [= _ <-]; try apply keeps_files_refl.
  intros k2 d t. cbn [fs with_fs]. intros H.
  apply lookup_insert_Some in H as [[_ H]|[_ H]]; done.
Qed.

Lemma keeps_files_mkdir p : steps keeps_files (mkdir p).
Proof.
  unfold mkdir. case_bool_decide; [keeps_step|]. keeps_step.
  intros k. apply keeps_files_mkdir_at.
Qed.

Lemma keeps_files_makedirs_rec (fuel : nat) : forall name,
  steps keeps_files (makedirs_rec fuel name).
Proof.
  induction fuel as [|fuel IH]; intros name; [keeps_step|].
  cbn [makedirs_rec]. destruct (split name) as [head tail].
  destruct (if bool_decide (tail = "") then split head else (head, tail)) as [head' tail'].
  keeps_step. intros missing. keeps_step.
  - destruct (_ && _); [|keeps_step]. keeps_step; [|intros _; keeps_step].
    keeps_step; [apply IH|]. intros e. destruct (exc_class e); keeps_step.
  - intros [|]; [keeps_step|apply keeps_files_mkdir].
Qed.

Lemma keeps_files_makedirs name : steps keeps_files (makedirs name).
Proof. apply keeps_files_makedirs_rec. Qed.

Lemma keeps_files_symlink src dst : steps keeps_files (symlink src dst).
Proof.
  intros w r w'. unfold symlink. destruct (lstat w dst) eqn:E.
  { intros [= _ <-]. apply keeps_files_refl. }
  destruct (_ || _); intros [= _ <-]; [apply keeps_files_refl|].
  intros k d t. cbn [fs with_fs]. intros H.
  apply lookup_insert_Some in H as [[_ H]|[_ H]]; done.
Qed.

Lemma keeps_files_purge_target cfg args : steps keeps_files (purge_target cfg args).
Proof.
  unfold purge_target. keeps_step. intros g. destruct (0 <? length g)%nat; [|keeps_step].
  keeps_step.
  - destruct (negb (silent args)); [|keeps_step]. keeps_step. intros _. keeps_step.
    intros _. keeps_step. intros answer. destruct (negb _); [|keeps_step].
    keeps_step. intros _. keeps_step.
  - intros [|]; [|keeps_step]. keeps_step; [|intros _; keeps_step].
    keeps_step. intros p. apply keeps_files_remove.
Qed.

Lemma keeps_files_prepare cfg args : steps keeps_files (prepare cfg args).
Proof.
  unfold prepare. keeps_step. intros present. keeps_step.
  - destruct (negb present); [apply keeps_files_makedirs|keeps_step].
  - intros _. destruct (purge args); [apply keeps_files_purge_target|keeps_step].
Qed.

Lemma keeps_files_link_files cfg args :
  copy args = false -> steps keeps_files (link_files cfg args).
Proof.
  intros Hc. unfold link_files. keeps_step. intros found. keeps_step. intros files.
  destruct (0 <? length files)%nat; [|keeps_step]. rewrite Hc. keeps_step; [|intros _; keeps_step].
  keeps_step. intros [i p]. unfold link_one. keeps_step. intros _.
  unfold perform_operation. rewrite Hc. apply keeps_files_symlink.
Qed.

Lemma keeps_files_collect_images cfg args :
  copy args = false -> steps keeps_files (collect_images cfg args).
Proof.
  intros Hc. unfold collect_images. keeps_step. intros [|]; [|keeps_step].
  keeps_step; [apply keeps_files_prepare|].
  intros [|]; [by apply keeps_files_link_files|keeps_step].
Qed.

(** ** What the linking stage can change *)

Lemma only_links_refl cfg args w : only_links cfg args w w.
Proof. split; [done|]. intros k. by left. Qed.

Lemma only_links_trans cfg args w1 w2 w3 :
  only_links cfg args w1 w2 -> only_links cfg args w2 w3 -> only_links cfg args w1 w3.
Proof.
  intros [Hc1 H1] [Hc2 H2]. split; [congruence|]. intros k.
  destruct (H2 k) as [E2|(N2 & [i Hi] & [s Hs])].
  - rewrite E2. apply H1.
  - destruct (H1 k) as [E1|(_ & _ & [s' Hs'])]; [|congruence].
    right. split; [congruence|]. split; [|by exists s].
    exists i. rewrite Hi. unfold key_of. by rewrite Hc1.
Qed.

Lemma only_links_stdout cfg args w l : only_links cfg args w (with_stdout w l).
Proof. split; [done|]. intros k. by left. Qed.

Lemma only_links_stdin cfg args w l : only_links cfg args w (with_stdin w l).
Proof. split; [done|]. intros k. by left. Qed.

Lemma only_links_symlink cfg args src i :
  steps (only_links cfg args) (symlink src (target_path cfg args i)).
Proof.
  intros w r w'. unfold symlink. destruct (lstat w _) eqn:E.
  { intros [= _ <-]. apply only_links_refl. }
  destruct (_ || _); intros [= _ <-]; [apply only_links_refl|].
  unfold lstat in E. rewrite bool_decide_false in E by apply target_path_nonempty.
  split; [done|]. intros k. cbn [fs with_fs].
  destruct (decide (k = key_of w (target_path cfg args i))) as [->|Hk].
  - right. split; [done|]. split; [by exists i|]. exists src. by rewrite lookup_insert_eq.
  - left. by rewrite lookup_insert_ne.
Qed.

Lemma only_links_link_files cfg args :
  copy args = false -> steps (only_links cfg args) (link_files cfg args).
Proof.
  intros Hc.
  pose proof (only_links_refl cfg args) as Hr. pose proof (only_links_trans cfg args) as Ht.
  pose proof (only_links_stdout cfg args) as Ho. pose proof (only_links_stdin cfg args) as Hi.
  unfold link_files. steps_step Hr Ht Ho Hi. intros found. steps_step Hr Ht Ho Hi.
  intros files. destruct (0 <? length files)%nat; [|steps_step Hr Ht Ho Hi]. rewrite Hc.
  steps_step Hr Ht Ho Hi; [|intros _; steps_step Hr Ht Ho Hi].
  steps_step Hr Ht Ho Hi. intros [i p]. unfold link_one. steps_step Hr Ht Ho Hi. intros _.
  unfold perform_operation. rewrite Hc. apply only_links_symlink.
Qed.

Lemma only_copies_refl w : only_copies w w.
Proof. split; [done|]. intros k. by left. Qed.

Lemma only_copies_trans w1 w2 w3 : only_copies w1 w2 -> only_copies w2 w3 -> only_copies w1 w3.
Proof.
  intros [Hn1 H1] [Hn2 H2]. split; [congruence|]. intros k.
  destruct (H2 k) as [E2|([data Hd] & Hb)].
  - rewrite E2. apply H1.
  - destruct (H1 k) as [E1|(_ & Hb1)].
    + right. rewrite <- E1. split; [|done]. exists data. by rewrite Hd, Hn1.
    + right. split; [|done]. exists data. by rewrite Hd, Hn1.
Qed.

Lemma only_copies_stdout w l : only_copies w (with_stdout w l).
Proof. split; [done|]. intros k. by left. Qed.

Lemma only_copies_stdin w l : only_copies w (with_stdin w l).
Proof. split; [done|]. intros k. by left. Qed.

Lemma follow_Missing (fuel : nat) (m : gmap key node) (k k' : key) :
  follow fuel m k = Missing k' -> m !! k' = None.
Proof.
  revert k. induction fuel as [|fuel IH]; intros k; simpl;
    destruct (m !! k) as [[| |s]|] eqn:E; try done;
    try (by intros [= <-]); case_bool_decide; try done. apply IH.
Qed.

Lemma follow_Found_present (fuel : nat) (m : gmap key node) (k k' : key) n :
  follow fuel m k = Found k' n -> m !! k' = Some n.
Proof.
  revert k. induction fuel as [|fuel IH]; intros k; simpl;
    destruct (m !! k) as [[| |s]|] eqn:E; try done;
    try (by intros [= <- <-]); case_bool_decide; try done. apply IH.
Qed.

Lemma only_copies_write_bytes dst data : steps only_copies (write_bytes dst data).
Proof.
  intros w r w'. unfold write_bytes, stat. case_bool_decide.
  { intros [= _ <-]. apply only_copies_refl. }
  destruct (follow _ _ _) as [k [|d t|]|k|] eqn:E; try (intros [= _ <-]; apply only_copies_refl).
  - intros [= _ <-]. apply follow_Found_present in E.
    split; [done|]. intros k'. cbn [fs with_fs].
    destruct (decide (k' = k)) as [->|Hk]; [|left; by rewrite lookup_insert_ne].
    right. rewrite lookup_insert_eq. split; [by exists data|]. right. by exists d, t.
  - destruct (dir_at _ _); intros [= _ <-]; [|apply only_copies_refl].
    apply follow_Missing in E.
    split; [done|]. intros k'. cbn [fs with_fs].
    destruct (decide (k' = k)) as [->|Hk]; [|left; by rewrite lookup_insert_ne].
    right. rewrite lookup_insert_eq. split; [by exists data|]. by left.
Qed.

Lemma only_copies_copyfile src dst : steps only_copies (copyfile src dst).
Proof.
  unfold copyfile.
  steps_step only_copies_refl only_copies_trans only_copies_stdout only_copies_stdin.
  intros [|]; [steps_step only_copies_refl only_copies_trans only_copies_stdout only_copies_stdin|].
  apply (steps_bind _ only_copies_trans); [apply (steps_read_bytes _ only_copies_refl)|].
  intros data. apply only_copies_write_bytes.
Qed.

Lemma only_copies_link_files cfg args :
  copy args = true -> steps only_copies (link_files cfg args).
Proof.
  intros Hc.
  pose proof only_copies_refl as Hr. pose proof only_copies_trans as Ht.
  pose proof only_copies_stdout as Ho. pose proof only_copies_stdin as Hi.
  unfold link_files. steps_step Hr Ht Ho Hi. intros found. steps_step Hr Ht Ho Hi.
  intros files. destruct (0 <? length files)%nat; [|steps_step Hr Ht Ho Hi]. rewrite Hc.
  steps_step Hr Ht Ho Hi; [|intros _; steps_step Hr Ht Ho Hi].
  steps_step Hr Ht Ho Hi. intros [i p]. unfold link_one. steps_step Hr Ht Ho Hi. intros _.
  unfold perform_operation. rewrite Hc. apply only_copies_copyfile.
Qed.

(** ** The pattern of [collect_images] and what [glob] makes of it *)

Lemma append_nil_r a : a +:+ "" = a.
Proof. induction a as [|c a IH]; [done|]. by rewrite append_cons, IH. Qed.

Lemma fnmatch_literal lit : forall name,
  has_magic lit = false -> fnmatch lit name = bool_decide (name = lit).
Proof.
  induction lit as [|c l IH]; intros name; [done|]. simpl.
  intros [[[H1 H2]%orb_false_iff H3]%orb_false_iff H4]%orb_false_iff.
  rewrite H1. destruct name as [|d r]; [done|]. rewrite H2, (IH r H4). simpl.
  repeat case_bool_decide; simplify_eq; done.
Qed.

Lemma fnmatch_star_ends_with (f : string -> bool) lit name :
  (forall n, f n = bool_decide (n = lit)) -> fnmatch_star f name = ends_with lit name.
Proof.
  intros Hf. induction name as [|c r IH]; simpl; [by rewrite Hf|]. by rewrite Hf, IH.
Qed.

Lemma fnmatch_suffix lit name :
  has_magic lit = false -> fnmatch ("*" +:+ lit) name = ends_with lit name.
Proof.
  intros H. rewrite append_cons, append_nil. simpl.
  apply fnmatch_star_ends_with. intros n. by apply fnmatch_literal.
Qed.

Lemma rsplit_plain t : has_slash t = false -> rsplit t = ("", t).
Proof.
  induction t as [|c r IH]; [done|]. simpl. intros [Hc Hr]%orb_false_iff.
  by rewrite (IH Hr), Hc.
Qed.

Lemma rsplit_app_slash h t :
  has_slash t = false -> rsplit (h +:+ String slash t) = (h +:+ String slash "", t).
Proof.
  intros Ht. induction h as [|c h IH].
  - rewrite !append_nil. simpl. by rewrite (rsplit_plain t Ht).
  - rewrite !append_cons. simpl. rewrite IH.
    destruct (h +:+ String slash "") as [|x y] eqn:E; [|done].
    by apply append_eq_nil in E.
Qed.

Lemma rstrip_slash_spec s : exists n, s = rstrip_slash s +:+ slashes n.
Proof.
  induction s as [|c r [n IH]]; [by exists 0|]. simpl.
  destruct (rstrip_slash r) as [|x y] eqn:E.
  - rewrite append_nil in IH. destruct (is_slash c) eqn:Hc.
    + exists (S n). unfold is_slash in Hc. apply bool_decide_eq_true in Hc. by subst.
    + exists n. by rewrite append_cons, append_nil, IH.
  - exists n. rewrite append_cons. by rewrite <- IH.
Qed.

Lemma foldl_norm_slashes acc n : foldl norm_step acc (split_slash (slashes n)) = acc.
Proof. revert acc. induction n as [|n IH]; intros acc; [done|]. simpl. apply IH. Qed.

Lemma key_from_slashes base s n : s <> "" -> key_from base (s +:+ slashes n) = key_from base s.
Proof.
  intros Hs. destruct n as [|n]; [by rewrite append_nil_r|].
  unfold key_from. rewrite isabs_app by done. simpl.
  by rewrite split_slash_app, foldl_app, foldl_norm_slashes.
Qed.

Lemma has_magic_slashes n : has_magic (slashes n) = false.
Proof. induction n as [|n IH]; [done|]. simpl. by rewrite IH. Qed.

(** The head that [os.path.split] returns for a head with its slashes. *)
Lemma strip_head head :
  head <> "" ->
  let dn := match rstrip_slash head with EmptyString => head | stripped => stripped end in
  dn <> "" /\ exists n, head = dn +:+ slashes n.
Proof.
  intros Hh. destruct (rstrip_slash_spec head) as [n Hn]. cbv zeta.
  destruct (rstrip_slash head) as [|x y]; [split; [done|]; exists 0; by rewrite append_nil_r|].
  split; [done|]. by exists n.
Qed.

Lemma split_join2 d b :
  d <> "" -> has_slash b = false ->
  snd (split (join2 d b)) = b
  /\ dirname (join2 d b) <> ""
  /\ exists n, (d = dirname (join2 d b) +:+ slashes n
                \/ d +:+ String slash "" = dirname (join2 d b) +:+ slashes n).
Proof.
  intros Hd Hb.
  assert (Hj : exists h, join2 d b = h +:+ String slash b
                         /\ (d = h +:+ String slash "" \/ d = h)).
  { unfold join2. rewrite (simple_name_not_abs b Hb), bool_decide_false by done.
    rewrite orb_false_l. destruct (ends_with_slash d) eqn:E.
    - apply ends_with_slash_inv in E as [h ->]. exists h.
      rewrite append_assoc. split; [done|]. by left.
    - exists d. split; [done|]. by right. }
  destruct Hj as (h & Hj & Hh). unfold dirname, split. rewrite Hj, rsplit_app_slash by done.
  assert (Hne : h +:+ String slash "" <> "") by (intros E; by apply append_eq_nil in E).
  destruct (strip_head _ Hne) as [Hdn [n Hn]]. cbn [fst snd].
  split; [done|]. split; [done|]. exists n. destruct Hh as [->| ->]; [by left|by right].
Qed.

Lemma key_from_dirname_join2 base d b :
  d <> "" -> has_slash b = false ->
  key_from base (dirname (join2 d b)) = key_from base d.
Proof.
  intros Hd Hb. destruct (split_join2 d b Hd Hb) as (_ & Hne & n & [H|H]).
  - rewrite H at 2. by rewrite key_from_slashes.
  - rewrite <- (key_from_slashes base d 1) by done.
    change (slashes 1) with (String slash ""). rewrite H. by rewrite key_from_slashes.
Qed.

Lemma has_magic_dirname_join2 d b :
  d <> "" -> has_slash b = false -> has_magic d = false ->
  has_magic (dirname (join2 d b)) = false.
Proof.
  intros Hd Hb Hm. destruct (split_join2 d b Hd Hb) as (_ & Hne & n & [H|H]).
  - rewrite H, has_magic_app in Hm. by apply orb_false_iff in Hm as [? _].
  - assert (Hm' : has_magic (d +:+ String slash "") = false).
    { rewrite has_magic_app, Hm. done. }
    rewrite H, has_magic_app in Hm'. by apply orb_false_iff in Hm' as [? _].
Qed.

Lemma iglob_pattern w d b :
  d <> "" -> has_slash b = false -> has_magic d = false -> has_magic b = true ->
  ishidden b = false ->
  iglob (S (String.length (join2 d b))) w (join2 d b) false
  = (fun name => join (dirname (join2 d b)) [name])
      <$> filter (fun x => fnmatch b x = true)
            (filter (fun x => ishidden x = false)
               (if isdir w d then children (fs w) (key_of w d) else [])).
Proof.
  intros Hd Hb Hmd Hmb Hhid.
  destruct (split_join2 d b Hd Hb) as (Hsnd & Hne & _).
  pose proof (has_magic_dirname_join2 d b Hd Hb Hmd) as Hmdn.
  pose proof (key_from_dirname_join2 (cwd w) d b Hd Hb) as Hkey.
  assert (Hp : has_magic (join2 d b) = true).
  { unfold join2. rewrite (simple_name_not_abs b Hb).
    destruct (_ || _); rewrite !has_magic_app, Hmb; by rewrite ?orb_true_r. }
  cbn [iglob]. unfold dirname in *.
  destruct (split (join2 d b)) as [dn bn] eqn:Es. cbn [fst snd] in *. subst bn.
  rewrite Hp. cbn [negb]. rewrite (bool_decide_false (dn = "")) by done.
  rewrite Hmdn, andb_false_r, Hmb.
  change (mbind ?f [dn]) with (f dn ++ []). rewrite app_nil_r.
  f_equal. unfold glob1. rewrite Hhid. f_equal. f_equal.
  unfold listdir. rewrite (bool_decide_false (dn = "")) by done.
  assert (Hisdir : isdir w dn = isdir w d).
  { unfold isdir, stat. rewrite !bool_decide_false by done. unfold key_of. by rewrite Hkey. }
  rewrite Hisdir. destruct (isdir w d); [|done].
  unfold key_of. rewrite Hkey.
  induction (children (fs w) (key_from (cwd w) d)) as [|x l IH]; [done|].
  rewrite filter_cons_True by done. by rewrite IH.
Qed.

Lemma pattern_join2 cfg args :
  pattern cfg args
  = join2 (join (source_dir cfg) [subdir args])
      ("*" +:+ format_plus_d (offset args) +:+ ".jpg").
Proof. reflexivity. Qed.

Lemma suffix_plain z :
  has_slash (format_plus_d z +:+ ".jpg") = false
  /\ has_magic (format_plus_d z +:+ ".jpg") = false.
Proof. by rewrite has_slash_app, has_magic_app, format_plus_d_no_slash, format_plus_d_no_magic. Qed.

(** ** Directories are never removed *)

Lemma keeps_dirs_refl w : keeps_dirs w w.
Proof. by intros k t. Qed.

Lemma keeps_dirs_trans w1 w2 w3 : keeps_dirs w1 w2 -> keeps_dirs w2 w3 -> keeps_dirs w1 w3.
Proof. intros H1 H2 k t H. by apply H2, H1. Qed.

Lemma keeps_dirs_stdout w l : keeps_dirs w (with_stdout w l).
Proof. by intros k t. Qed.

Lemma keeps_dirs_stdin w l : keeps_dirs w (with_stdin w l).
Proof. by intros k t. Qed.

Ltac dirs_step :=
  steps_step keeps_dirs_refl keeps_dirs_trans keeps_dirs_stdout keeps_dirs_stdin.

Lemma keeps_dirs_insert w k0 n :
  (forall t, fs w !! k0 <> Some (Dir t)) -> keeps_dirs w (with_fs w (<[k0 := n]> (fs w))).
Proof.
  intros H0 k t Hk. cbn [fs with_fs]. rewrite lookup_insert_ne; [done|].
  intros <-. by eapply H0.
Qed.

Lemma keeps_dirs_remove p : steps keeps_dirs (remove p).
Proof.
  intros w r w'. unfold remove, lstat. case_bool_decide.
  { intros [= _ <-]. apply keeps_dirs_refl. }
  destruct (fs w !! key_of w p) as [[| |]|] eqn:E; intros [= _ <-];
    try apply keeps_dirs_refl; intros k t Hk; cbn [fs with_fs];
    (rewrite lookup_delete_ne; [done|congruence]).
Qed.

Lemma keeps_dirs_mkdir_at k p : steps keeps_dirs (mkdir_at k p).
Proof.
  intros w r w'. unfold mkdir_at. destruct (fs w !! k) eqn:E.
  { intros [= _ <-]. apply keeps_dirs_refl. }
  destruct (follow _ _ _) as [k1 [| |]| |]; intros [= _ <-]; try apply keeps_dirs_refl.
  apply keeps_dirs_insert. congruence.
Qed.

Lemma keeps_dirs_mkdir p : steps keeps_dirs (mkdir p).
Proof.
  unfold mkdir. case_bool_decide; [dirs_step|]. dirs_step.
  intros k. apply keeps_dirs_mkdir_at.
Qed.

Lemma keeps_dirs_makedirs_rec (fuel : nat) : forall name,
  steps keeps_dirs (makedirs_rec fuel name).
Proof.
  induction fuel as [|fuel IH]; intros name; [dirs_step|].
  cbn [makedirs_rec]. destruct (split name) as [head tail].
  destruct (if bool_decide (tail = "") then split head else (head, tail)) as [head' tail'].
  dirs_step. intros missing. dirs_step.
  - destruct (_ && _); [|dirs_step]. dirs_step; [|intros _; dirs_step].
    dirs_step; [apply IH|]. intros e. destruct (exc_class e); dirs_step.
  - intros [|]; [dirs_step|apply keeps_dirs_mkdir].
Qed.

Lemma keeps_dirs_makedirs name : steps keeps_dirs (makedirs name).
Proof. apply keeps_dirs_makedirs_rec. Qed.

Lemma keeps_dirs_symlink src dst : steps keeps_dirs (symlink src dst).
Proof.
  intros w r w'. unfold symlink, lstat. case_bool_decide.
  { intros [= _ <-]. apply keeps_dirs_refl. }
  destruct (fs w !! key_of w dst) eqn:E.
  { intros [= _ <-]. apply keeps_dirs_refl. }
  destruct (_ || _); intros [= _ <-]; [apply keeps_dirs_refl|].
  apply keeps_dirs_insert. congruence.
Qed.

Lemma keeps_dirs_write_bytes dst data : steps keeps_dirs (write_bytes dst data).
Proof.
  intros w r w'. unfold write_bytes, stat. case_bool_decide.
  { intros [= _ <-]. apply keeps_dirs_refl. }
  destruct (follow _ _ _) as [k [|d t|]|k|] eqn:E; try (intros [= _ <-]; apply keeps_dirs_refl).
  - intros [= _ <-]. apply follow_Found_present in E. apply keeps_dirs_insert. congruence.
  - destruct (dir_at _ _); intros [= _ <-]; [|apply keeps_dirs_refl].
    apply follow_Missing in E. apply keeps_dirs_insert. congruence.
Qed.

Lemma keeps_dirs_copyfile src dst : steps keeps_dirs (copyfile src dst).
Proof.
  unfold copyfile. dirs_step. intros [|]; [dirs_step|].
  apply (steps_bind _ keeps_dirs_trans); [apply (steps_read_bytes _ keeps_dirs_refl)|].
  intros data. apply keeps_dirs_write_bytes.
Qed.

Lemma keeps_dirs_purge_target cfg args : steps keeps_dirs (purge_target cfg args).
Proof.
  unfold purge_target. dirs_step. intros g. destruct (0 <? length g)%nat; [|dirs_step].
  dirs_step.
  - destruct (negb (silent args)); [|dirs_step]. dirs_step. intros _. dirs_step.
    intros _. dirs_step. intros answer. destruct (negb _); [|dirs_step].
    dirs_step. intros _. dirs_step.
  - intros [|]; [|dirs_step]. dirs_step; [|intros _; dirs_step].
    dirs_step. intros p. apply keeps_dirs_remove.
Qed.

Lemma keeps_dirs_prepare cfg args : steps keeps_dirs (prepare cfg args).
Proof.
  unfold prepare. dirs_step. intros present. dirs_step.
  - destruct (negb present); [apply keeps_dirs_makedirs|dirs_step].
  - intros _. destruct (purge args); [apply keeps_dirs_purge_target|dirs_step].
Qed.

Lemma keeps_dirs_link_files cfg args : steps keeps_dirs (link_files cfg args).
Proof.
  unfold link_files. dirs_step. intros found. dirs_step. intros files.
  destruct (0 <? length files)%nat; [|dirs_step].
  dirs_step; [|intros _; destruct (copy args); dirs_step].
  dirs_step. intros [i p]. unfold link_one. dirs_step. intros _.
  unfold perform_operation. destruct (copy args);
    [apply keeps_dirs_copyfile|apply keeps_dirs_symlink].
Qed.

Lemma keeps_dirs_collect_images cfg args : steps keeps_dirs (collect_images cfg args).
Proof.
  unfold collect_images. dirs_step. intros [|]; [|dirs_step].
  dirs_step; [apply keeps_dirs_prepare|].
  intros [|]; [apply keeps_dirs_link_files|dirs_step].
Qed.

Lemma keeps_dirs_init : steps keeps_dirs init.
Proof.
  unfold init. dirs_step. intros d. dirs_step. intros present.
  destruct (negb present); [|dirs_step]. dirs_step; [apply keeps_dirs_copyfile|].
  intros _. dirs_step.
Qed.

(** ** Relations that no change of the file system breaks *)

Section Steps_fs.
Variable R : world -> world -> Prop.
Hypothesis R_refl : forall w, R w w.
Hypothesis R_trans : forall w1 w2 w3, R w1 w2 -> R w2 w3 -> R w1 w3.
Hypothesis R_stdout : forall w l, R w (with_stdout w l).
Hypothesis R_fs : forall w m, R w (with_fs w m).

Lemma steps_remove p : steps R (remove p).
Proof.
  intros w r w'. unfold remove.
  destruct (lstat w p) as [[| |]|]; intros [= _ <-]; apply R_refl || apply R_fs.
Qed.

Lemma steps_mkdir_at k p : steps R (mkdir_at k p).
Proof.
  intros w r w'. unfold mkdir_at. destruct (fs w !! k).
  { intros [= _ <-]. apply R_refl. }
  destruct (follow _ _ _) as [k1 [| |]| |]; intros [= _ <-]; apply R_refl || apply R_fs.
Qed.

Lemma steps_mkdir p : steps R (mkdir p).
Proof.
  unfold mkdir. case_bool_decide; [apply (steps_raise _ R_refl)|].
  apply (steps_bind _ R_trans); [apply (steps_ask _ R_refl)|].
  intros k. apply steps_mkdir_at.
Qed.

Lemma steps_makedirs_rec (fuel : nat) : forall name, steps R (makedirs_rec fuel name).
Proof.
  induction fuel as [|fuel IH]; intros name; [apply (steps_raise _ R_refl)|].
  cbn [makedirs_rec]. destruct (split name) as [head tail].
  destruct (if bool_decide (tail = "") then split head else (head, tail)) as [head' tail'].
  apply (steps_bind _ R_trans); [apply (steps_ask _ R_refl)|]. intros missing.
  apply (steps_bind _ R_trans).
  - destruct (_ && _); [|apply (steps_ret _ R_refl)].
    apply (steps_bind _ R_trans); [|intros _; apply (steps_ret _ R_refl)].
    apply (steps_try_except _ R_trans); [apply IH|].
    intros e. destruct (exc_class e); apply (steps_ret _ R_refl) || apply (steps_raise _ R_refl).
  - intros [|]; [apply (steps_ret _ R_refl)|apply steps_mkdir].
Qed.

Lemma steps_makedirs name : steps R (makedirs name).
Proof. apply steps_makedirs_rec. Qed.

Lemma steps_symlink src dst : steps R (symlink src dst).
Proof.
  intros w r w'. unfold symlink. destruct (lstat w dst).
  { intros [= _ <-]. apply R_refl. }
  destruct (_ || _); intros [= _ <-]; apply R_refl || apply R_fs.
Qed.

Lemma steps_write_bytes dst data : steps R (write_bytes dst data).
Proof.
  intros w r w'. unfold write_bytes.
  destruct (stat w dst) as [k [| |]|k|]; try (intros [= _ <-]; apply R_refl || apply R_fs).
  destruct (dir_at _ _); intros [= _ <-]; apply R_refl || apply R_fs.
Qed.

Lemma steps_copyfile src dst : steps R (copyfile src dst).
Proof.
  unfold copyfile. apply (steps_bind _ R_trans); [apply (steps_ask _ R_refl)|].
  intros [|]; [apply (steps_raise _ R_refl)|].
  apply (steps_bind _ R_trans); [apply (steps_read_bytes _ R_refl)|].
  intros data. apply steps_write_bytes.
Qed.

Lemma steps_link_files cfg args : steps R (link_files cfg args).
Proof.
  unfold link_files. apply (steps_bind _ R_trans); [apply (steps_glob _ R_refl)|].
  intros found. apply (steps_bind _ R_trans); [apply (steps_sorted _ R_refl R_trans)|].
  intros files. destruct (0 <? length files)%nat; [|apply (steps_print _ R_stdout)].
  apply (steps_bind _ R_trans); [|intros _; destruct (copy args); apply (steps_print _ R_stdout)].
  apply (steps_for_each _ R_refl R_trans). intros [i p]. unfold link_one.
  apply (steps_bind _ R_trans); [apply (steps_print _ R_stdout)|]. intros _.
  unfold perform_operation. destruct (copy args); [apply steps_copyfile|apply steps_symlink].
Qed.

Lemma steps_init : steps R init.
Proof.
  unfold init. apply (steps_bind _ R_trans); [apply (steps_ask _ R_refl)|]. intros d.
  apply (steps_bind _ R_trans); [apply (steps_ask _ R_refl)|]. intros present.
  destruct (negb present); [|apply (steps_ret _ R_refl)].
  apply (steps_bind _ R_trans); [apply steps_copyfile|]. intros _. apply (steps_print _ R_stdout).
Qed.

(** The purge when nothing is asked: [--silent], or nothing to delete. *)
Lemma steps_purge_target_silent cfg args :
  silent args = true -> steps R (purge_target cfg args).
Proof.
  intros Hs. unfold purge_target. rewrite Hs. cbn [negb].
  apply (steps_bind _ R_trans); [apply (steps_glob _ R_refl)|]. intros g.
  destruct (0 <? length g)%nat; [|apply (steps_ret _ R_refl)].
  apply (steps_bind _ R_trans); [apply (steps_ret _ R_refl)|].
  intros [|]; [|apply (steps_ret _ R_refl)].
  apply (steps_bind _ R_trans); [|intros _; apply (steps_ret _ R_refl)].
  apply (steps_for_each _ R_refl R_trans). intros p. apply steps_remove.
Qed.

Lemma steps_collect_images_unasked cfg args :
  purge args = false \/ silent args = true -> steps R (collect_images cfg args).
Proof.
  intros Hps. unfold collect_images.
  apply (steps_bind _ R_trans); [apply (steps_ask _ R_refl)|].
  intros [|]; [|apply (steps_print _ R_stdout)].
  apply (steps_bind _ R_trans); [|intros [|]; [apply steps_link_files|apply (steps_ret _ R_refl)]].
  unfold prepare. apply (steps_bind _ R_trans); [apply (steps_ask _ R_refl)|]. intros present.
  apply (steps_bind _ R_trans).
  - destruct (negb present); [apply steps_makedirs|apply (steps_ret _ R_refl)].
  - intros _. destruct (purge args) eqn:Hp; [|apply (steps_ret _ R_refl)].
    apply steps_purge_target_silent. by destruct Hps.
Qed.

End Steps_fs.

Lemma quiet_refl w : quiet w w.
Proof. done. Qed.

Lemma quiet_trans w1 w2 w3 : quiet w1 w2 -> quiet w2 w3 -> quiet w1 w3.
Proof. intros [H1 H2] [H3 H4]. split; congruence. Qed.

Lemma quiet_stdout w l : quiet w (with_stdout w l).
Proof. done. Qed.

Lemma quiet_fs w m : quiet w (with_fs w m).
Proof. done. Qed.

(** ** The stage that links *)

Lemma isdir_dir_at w p : isdir w p = true -> dir_at (fs w) (key_of w p) = true.
Proof. unfold isdir, stat, dir_at. by case_bool_decide. Qed.

Lemma sorted_getmtime w found times :
  Forall2 (fun p t => getmtime p w = (Val t, w)) found times ->
  sorted found getmtime w = (Val (snd <$> sort_by_key (zip times found)), w).
Proof.
  intros H. unfold sorted. by rewrite (bind_val _ _ _ _ _ (map_m_getmtime _ _ _ H)).
Qed.

Lemma sorted_files_perm (times : list Z) (found : list string) :
  length times = length found ->
  snd <$> sort_by_key (zip times found) ≡ₚ found.
Proof.
  intros Hlen. rewrite sort_by_key_perm. rewrite snd_zip; [done|lia].
Qed.

(** ** Every run of [collect_images] *)

Section Steps_all.
Variable R : world -> world -> Prop.
Hypothesis R_refl : forall w, R w w.
Hypothesis R_trans : forall w1 w2 w3, R w1 w2 -> R w2 w3 -> R w1 w3.
Hypothesis R_stdout : forall w l, R w (with_stdout w l).
Hypothesis R_stdin : forall w l, R w (with_stdin w l).
Hypothesis R_fs : forall w m, R w (with_fs w m).

Lemma steps_purge_target cfg args : steps R (purge_target cfg args).
Proof.
  unfold purge_target. steps_step R_refl R_trans R_stdout R_stdin. intros g.
  destruct (0 <? length g)%nat; [|steps_step R_refl R_trans R_stdout R_stdin].
  steps_step R_refl R_trans R_stdout R_stdin.
  - destruct (negb (silent args)); [|steps_step R_refl R_trans R_stdout R_stdin].
    steps_step R_refl R_trans R_stdout R_stdin. intros _.
    steps_step R_refl R_trans R_stdout R_stdin. intros _.
    steps_step R_refl R_trans R_stdout R_stdin. intros answer.
    destruct (negb _); [|steps_step R_refl R_trans R_stdout R_stdin].
    steps_step R_refl R_trans R_stdout R_stdin. intros _.
    steps_step R_refl R_trans R_stdout R_stdin.
  - intros [|]; [|steps_step R_refl R_trans R_stdout R_stdin].
    steps_step R_refl R_trans R_stdout R_stdin;
      [|intros _; steps_step R_refl R_trans R_stdout R_stdin].
    steps_step R_refl R_trans R_stdout R_stdin. intros p.
    apply (steps_remove _ R_refl R_fs).
Qed.

Lemma steps_collect_images cfg args : steps R (collect_images cfg args).
Proof.
  unfold collect_images. steps_step R_refl R_trans R_stdout R_stdin.
  intros [|]; [|steps_step R_refl R_trans R_stdout R_stdin].
  steps_step R_refl R_trans R_stdout R_stdin.
  - unfold prepare. steps_step R_refl R_trans R_stdout R_stdin. intros present.
    steps_step R_refl R_trans R_stdout R_stdin.
    + destruct (negb present); [apply (steps_makedirs _ R_refl R_trans R_fs)
                               |steps_step R_refl R_trans R_stdout R_stdin].
    + intros _. destruct (purge args); [apply steps_purge_target
                                       |steps_step R_refl R_trans R_stdout R_stdin].
  - intros [|]; [apply (steps_link_files _ R_refl R_trans R_stdout R_fs)
                |steps_step R_refl R_trans R_stdout R_stdin].
Qed.

End Steps_all.

Lemma same_place_collect_images cfg args w :
  same_place w (snd (collect_images cfg args w)).
Proof.
  destruct (collect_images cfg args w) as [r w'] eqn:E.
  apply (steps_collect_images same_place) in E; try done.
  intros w1 w2 w3 [H1 H2] [H3 H4]. split; congruence.
Qed.

(** ** Copy mode writes under the numbered names *)

Lemma writes_numbered_refl cfg args w : writes_numbered cfg args w w.
Proof. intros Hp. split; [done|]. split; [done|]. intros k d t H. by left. Qed.

Lemma writes_numbered_trans cfg args w1 w2 w3 :
  writes_numbered cfg args w1 w2 -> writes_numbered cfg args w2 w3 ->
  writes_numbered cfg args w1 w3.
Proof.
  intros H12 H23 Hp. destruct (H12 Hp) as (Hc1 & Hp2 & Hf1).
  destruct (H23 Hp2) as (Hc2 & Hp3 & Hf2).
  split; [congruence|]. split; [done|]. intros k d t Hk.
  destruct (Hf2 k d t Hk) as [H|[i ->]]; [by apply Hf1|].
  right. exists i. unfold key_of. by rewrite Hc1.
Qed.

Lemma writes_numbered_stdout cfg args w l : writes_numbered cfg args w (with_stdout w l).
Proof. intros Hp. split; [done|]. split; [done|]. intros k d t H. by left. Qed.

Lemma writes_numbered_stdin cfg args w l : writes_numbered cfg args w (with_stdin w l).
Proof. intros Hp. split; [done|]. split; [done|]. intros k d t H. by left. Qed.

Ltac numbered_step cfg args :=
  steps_step (writes_numbered_refl cfg args) (writes_numbered_trans cfg args)
             (writes_numbered_stdout cfg args) (writes_numbered_stdin cfg args).

Lemma writes_numbered_delete cfg args w (k0 : key) :
  writes_numbered cfg args w (with_fs w (delete k0 (fs w))).
Proof.
  intros Hp. split; [done|]. split.
  - intros i s. change (key_of (with_fs w ?m)) with (key_of w). cbn [fs with_fs].
    intros [_ H]%lookup_delete_Some. by apply (Hp i s).
  - intros k d t. cbn [fs with_fs]. intros [_ H]%lookup_delete_Some. by left.
Qed.

Lemma writes_numbered_insert_dir cfg args w (k0 : key) t0 :
  writes_numbered cfg args w (with_fs w (<[k0 := Dir t0]> (fs w))).
Proof.
  intros Hp. split; [done|]. split.
  - intros i s. change (key_of (with_fs w ?m)) with (key_of w). cbn [fs with_fs].
    intros [[_ H]|[_ H]]%lookup_insert_Some; [done|]. by apply (Hp i s).
  - intros k d t. cbn [fs with_fs]. intros [[_ H]|[_ H]]%lookup_insert_Some; [done|]. by left.
Qed.

Lemma writes_numbered_insert_file cfg args w i d0 t0 :
  writes_numbered cfg args w
    (with_fs w (<[key_of w (target_path cfg args i) := File d0 t0]> (fs w))).
Proof.
  intros Hp. split; [done|]. split.
  - intros j s. change (key_of (with_fs w ?m)) with (key_of w). cbn [fs with_fs].
    intros [[_ H]|[_ H]]%lookup_insert_Some; [done|]. by apply (Hp j s).
  - intros k d t. cbn [fs with_fs]. intros [[<- _]|[_ H]]%lookup_insert_Some; [|by left].
    right. by exists i.
Qed.

Lemma writes_numbered_remove cfg args p : steps (writes_numbered cfg args) (remove p).
Proof.
  intros w r w'. unfold remove. destruct (lstat w p) as [[| |]|]; intros [= _ <-];
    apply writes_numbered_refl || apply writes_numbered_delete.
Qed.

Lemma writes_numbered_mkdir_at cfg args k p : steps (writes_numbered cfg args) (mkdir_at k p).
Proof.
  intros w r w'. unfold mkdir_at. destruct (fs w !! k).
  { intros [= _ <-]. apply writes_numbered_refl. }
  destruct (follow _ _ _) as [k1 [| |]| |]; intros [= _ <-];
    apply writes_numbered_refl || apply writes_numbered_insert_dir.
Qed.

Lemma writes_numbered_makedirs_rec cfg args (fuel : nat) : forall name,
  steps (writes_numbered cfg args) (makedirs_rec fuel name).
Proof.
  induction fuel as [|fuel IH]; intros name; [numbered_step cfg args|].
  cbn [makedirs_rec]. destruct (split name) as [head tail].
  destruct (if bool_decide (tail = "") then split head else (head, tail)) as [head' tail'].
  numbered_step cfg args. intros missing. numbered_step cfg args.
  - destruct (_ && _); [|numbered_step cfg args].
    numbered_step cfg args; [|intros _; numbered_step cfg args].
    numbered_step cfg args; [apply IH|]. intros e. destruct (exc_class e); numbered_step cfg args.
  - intros [|]; [numbered_step cfg args|].
    unfold mkdir. case_bool_decide; [numbered_step cfg args|]. numbered_step cfg args.
    intros k. apply writes_numbered_mkdir_at.
Qed.

Lemma follow_not_link (fuel : nat) (m : gmap key node) (k : key) :
  (forall s, m !! k <> Some (Symlink s)) ->
  follow fuel m k = match m !! k with Some n => Found k n | None => Missing k end.
Proof.
  intros H. destruct fuel; simpl; destruct (m !! k) as [[| |s]|]; try done; by destruct (H s).
Qed.

Lemma writes_numbered_write_bytes cfg args i data :
  steps (writes_numbered cfg args) (write_bytes (target_path cfg args i) data).
Proof.
  intros w r w' Hrun Hp. revert Hrun. unfold write_bytes, stat.
  rewrite bool_decide_false by apply target_path_nonempty.
  rewrite (follow_not_link _ _ _ (Hp i)).
  destruct (fs w !! key_of w (target_path cfg args i)) as [[| |]|] eqn:E.
  - intros [= _ <-]. by apply writes_numbered_refl.
  - intros [= _ <-]. by apply writes_numbered_insert_file.
  - intros [= _ <-]. by apply writes_numbered_refl.
  - destruct (dir_at _ _); intros [= _ <-];
      [by apply writes_numbered_insert_file|by apply writes_numbered_refl].
Qed.

Lemma writes_numbered_link_files cfg args :
  copy args = true -> steps (writes_numbered cfg args) (link_files cfg args).
Proof.
  intros Hc. unfold link_files. numbered_step cfg args. intros found.
  numbered_step cfg args. intros files.
  destruct (0 <? length files)%nat; [|numbered_step cfg args]. rewrite Hc.
  numbered_step cfg args; [|intros _; numbered_step cfg args].
  numbered_step cfg args. intros [i p]. unfold link_one. numbered_step cfg args. intros _.
  unfold perform_operation. rewrite Hc. unfold copyfile.
  numbered_step cfg args. intros [|]; [numbered_step cfg args|].
  apply (steps_bind _ (writes_numbered_trans cfg args));
    [apply (steps_read_bytes _ (writes_numbered_refl cfg args))|].
  intros data. apply writes_numbered_write_bytes.
Qed.

Lemma writes_numbered_collect_images cfg args :
  copy args = true -> steps (writes_numbered cfg args) (collect_images cfg args).
Proof.
  intros Hc. unfold collect_images. numbered_step cfg args.
  intros [|]; [|numbered_step cfg args]. numbered_step cfg args.
  - unfold prepare. numbered_step cfg args. intros present. numbered_step cfg args.
    + destruct (negb present); [apply writes_numbered_makedirs_rec|numbered_step cfg args].
    + intros _. destruct (purge args); [|numbered_step cfg args].
      unfold purge_target. numbered_step cfg args. intros g.
      destruct (0 <? length g)%nat; [|numbered_step cfg args]. numbered_step cfg args.
      * destruct (negb (silent args)); [|numbered_step cfg args].
        numbered_step cfg args. intros _. numbered_step cfg args. intros _.
        numbered_step cfg args. intros answer. destruct (negb _); [|numbered_step cfg args].
        numbered_step cfg args. intros _. numbered_step cfg args.
      * intros [|]; [|numbered_step cfg args].
        numbered_step cfg args; [|intros _; numbered_step cfg args].
        numbered_step cfg args. intros p. apply writes_numbered_remove.
  - intros [|]; [by apply writes_numbered_link_files|numbered_step cfg args].
Qed.

Lemma jpg_name_not_settings i : format_d i +:+ ".jpg" <> "settings.py".
Proof.
  destruct (format_d_digits i) as [Hd Hne].
  destruct (format_d i) as [|c r]; [done|]. rewrite append_cons. intros [= -> _]. done.
Qed.

Lemma settings_name_simple : simple_name "settings.py".
Proof. repeat split; done. Qed.

(** * The claims *)

(** C3 (as the code has it): when the configured source directory does not
    exist, [collect_images] prints one line and returns normally; no
    exception is raised and the file system is left as it was, so no
    directory is created. *)
Theorem collect_images_missing_source cfg args w :
  isdir w (source_dir cfg) = false ->
  collect_images cfg args w
  = (Val tt, with_stdout w (stdout w ++ ["Source directory defined in settings does not exist."])).
Proof.
  intros H. unfold collect_images. mstep. rewrite H. reflexivity.
Qed.

Lemma collect_images_missing_source_witness :
  isdir w_demo (source_dir (Settings "/nowhere")) = false
  /\ collect_images (Settings "/nowhere") args_new w_demo
     = (Val tt, with_stdout w_demo
                  (stdout w_demo ++ ["Source directory defined in settings does not exist."])).
Proof.
  split; [reflexivity|].
  apply (collect_images_missing_source (Settings "/nowhere") args_new w_demo). reflexivity.
Defined.

(** C3 as the specification states it fails: with a source directory that
    does not exist the run raises nothing. *)
Lemma collect_images_missing_source_no_error :
  isdir w_demo (source_dir (Settings "/nowhere")) = false
  /\ ~ exists e w', collect_images (Settings "/nowhere") args_new w_demo = (Raise e, w').
Proof.
  split; [reflexivity|]. intros (e & w' & H).
  assert (Hr : fst (collect_images (Settings "/nowhere") args_new w_demo) = Val tt)
    by (vm_compute; reflexivity).
  rewrite H in Hr. discriminate.
Qed.

(** C6: when the pattern matches no file, [collect_images] prints that no
    files were found (its report of a count of zero), leaves the file system
    as the preparation of the target directory left it, so no target entry
    is created, and returns normally.  With no purge and an existing target
    directory the file system is the initial one. *)
Theorem collect_images_no_match cfg args w :
  isdir w (source_dir cfg) = true ->
  (forall w1,
     prepare cfg args w = (Val true, w1) ->
     glob (pattern cfg args) w1 = (Val [], w1) ->
     collect_images cfg args w
     = (Val tt, with_stdout w1 (stdout w1 ++ ["No files found to be processed."])))
  /\ (purge args = false ->
      isdir w (target_dir cfg args) = true ->
      glob (pattern cfg args) w = (Val [], w) ->
      collect_images cfg args w
      = (Val tt, with_stdout w (stdout w ++ ["No files found to be processed."]))).
Proof.
  intros Hs.
  assert (Hgen : forall w1,
     prepare cfg args w = (Val true, w1) ->
     glob (pattern cfg args) w1 = (Val [], w1) ->
     collect_images cfg args w
     = (Val tt, with_stdout w1 (stdout w1 ++ ["No files found to be processed."]))).
  { intros w1 Hp Hg. unfold collect_images. mstep. rewrite Hs.
    rewrite (bind_val _ _ _ _ _ Hp). unfold link_files.
    rewrite (bind_val _ _ _ _ _ Hg). reflexivity. }
  split; [exact Hgen|]. intros Hpu Ht Hg. apply Hgen; [|exact Hg].
  unfold prepare. mstep. rewrite Ht, Hpu. reflexivity.
Qed.

Lemma collect_images_no_match_witness :
  isdir w_demo (source_dir cfg_demo) = true
  /\ collect_images cfg_demo args_none w_demo
     = (Val tt, with_stdout w_demo (stdout w_demo ++ ["No files found to be processed."])).
Proof.
  split; [reflexivity|].
  apply (collect_images_no_match cfg_demo args_none w_demo); reflexivity.
Defined.

(** C2 (as the code has it): with purge requested, silent mode off, an
    existing source directory and a target directory in which [glob] finds
    an entry (one whose name does not start with a dot), an answer whose
    lower-case form is not "y" ends the run: the two questions and
    "Operation cancelled." are printed, the answer is consumed, the file
    system is untouched (nothing deleted, nothing linked or copied) and no
    exception is raised. *)
Theorem collect_images_cancelled cfg args w answer rest g :
  isdir w (source_dir cfg) = true ->
  isdir w (target_dir cfg args) = true ->
  purge args = true -> silent args = false ->
  glob (join (target_dir cfg args) ["*"]) w = (Val g, w) ->
  g <> [] ->
  stdin w = answer :: rest ->
  lower answer <> "y" ->
  collect_images cfg args w
  = (Val tt,
     with_stdout (with_stdin w rest)
       (stdout w ++ ["All files in target directory " +:+ target_dir cfg args +:+ " will be deleted.";
                     "Do you want to continue? (y/n)"; "Operation cancelled."])).
Proof.
  intros Hs Ht Hpu Hsi Hg Hne Hin Hans.
  unfold collect_images. mstep. rewrite Hs.
  unfold prepare. mstep. rewrite Ht. cbn [negb]. mstep. rewrite Hpu.
  unfold purge_target. mstep. rewrite (bind_val _ _ _ _ _ Hg).
  destruct g as [|p g']; [done|]. cbn [length Nat.ltb Nat.leb].
  rewrite Hsi. cbn [negb]. mstep.
  unfold bind at 1. unfold input at 1. cbn [stdin with_stdout]. rewrite Hin.
  rewrite bool_decide_false by done. cbn [negb]. mstep.
  unfold ret. f_equal. unfold with_stdout, with_stdin. cbn. rewrite <- !app_assoc. reflexivity.
Qed.

Lemma collect_images_cancelled_witness :
  fs (snd (collect_images cfg_demo args_purge (with_stdin w_demo ["n"; "later"]))) = fs_demo
  /\ stdin (snd (collect_images cfg_demo args_purge (with_stdin w_demo ["n"; "later"]))) = ["later"].
Proof.
  assert (Hg : glob (join (target_dir cfg_demo args_purge) ["*"]) (with_stdin w_demo ["n"; "later"])
               = (Val ["/srv/img/out/notes.txt"; "/srv/img/out/0.jpg"],
                  with_stdin w_demo ["n"; "later"])).
  { unfold glob, ask. f_equal. }
  rewrite (collect_images_cancelled cfg_demo args_purge (with_stdin w_demo ["n"; "later"])
             "n" ["later"] ["/srv/img/out/notes.txt"; "/srv/img/out/0.jpg"]
             eq_refl eq_refl eq_refl eq_refl Hg).
  - split; reflexivity.
  - discriminate.
  - reflexivity.
  - discriminate.
Defined.

(** C2 as the specification states it fails: "Y" is an answer other than
    "y", yet the run goes on: the entries of the target directory are
    deleted and no cancellation is reported. *)
Lemma capital_Y_confirms_the_purge :
  let w := with_stdin w_demo ["Y"] in
  let w' := snd (collect_images cfg_demo args_purge w) in
  "Y" <> "y"
  /\ lstat w "/srv/img/out/notes.txt" = Some (File "keep" 6)
  /\ lstat w' "/srv/img/out/notes.txt" = None
  /\ "Operation cancelled." ∉ stdout w'.
Proof.
  cbv zeta. split; [discriminate|]. split; [reflexivity|]. split; [vm_compute; reflexivity|].
  vm_compute. intros H. repeat (apply elem_of_cons in H as [H|H]; [discriminate|]).
  by apply elem_of_nil in H.
Qed.

(** C9: the target directory of a run is the given target when that is an
    absolute path, and otherwise [os.path.join] of the configured source
    directory and the given target; in the second case the directory it
    names is found by walking the components of the target from the source
    directory, whatever the current working directory is when the source
    directory is absolute. *)
Theorem target_dir_resolution cfg args :
  (isabs (target args) = true -> target_dir cfg args = target args)
  /\ (isabs (target args) = false ->
      target_dir cfg args = join (source_dir cfg) [target args]
      /\ (forall base,
            key_from base (target_dir cfg args)
            = foldl norm_step (key_from base (source_dir cfg)) (split_slash (target args)))
      /\ (isabs (source_dir cfg) = true ->
          forall base base',
            key_from base (target_dir cfg args) = key_from base' (target_dir cfg args))).
Proof.
  unfold target_dir. split; intros H; rewrite H; [done|].
  assert (Hk : forall base,
             key_from base (join (source_dir cfg) [target args])
             = foldl norm_step (key_from base (source_dir cfg)) (split_slash (target args))).
  { intros base. cbn [join foldl]. by apply key_from_join2. }
  split; [done|]. split; [done|].
  intros Habs base base'. rewrite !Hk. unfold key_from. by rewrite Habs.
Qed.

Lemma target_dir_resolution_witness :
  target_dir cfg_demo (CollectArgs 1 "/mnt/usb" "" false false false) = "/mnt/usb"
  /\ target_dir cfg_demo args_out = "/srv/img/out"
  /\ key_from ["home"; "pi"] (target_dir cfg_demo args_out) = ["srv"; "img"; "out"].
Proof.
  split; [|split].
  - apply (proj1 (target_dir_resolution cfg_demo (CollectArgs 1 "/mnt/usb" "" false false false))).
    reflexivity.
  - apply (proj2 (target_dir_resolution cfg_demo args_out)). reflexivity.
  - rewrite (proj1 (proj2 (proj2 (target_dir_resolution cfg_demo args_out) eq_refl))).
    reflexivity.
Defined.

Section Top.
Variable cfg : settings.
Variable show_time_rest : string -> M unit.
Variable run_commands_rest : bool -> M unit.
Variable help_text : string.

(** C8 (as the code has it): when the selected action raises an exception,
    [main] catches it, logs the one line "Operation failed: " followed by
    the text of the exception, keeps what the action had done until then,
    and returns normally; the exit status of the process is therefore 0,
    the same as after a run without a failure. *)
Theorem main_logs_failure_and_returns a w e w' :
  func cfg show_time_rest run_commands_rest a w = (Raise e, w') ->
  main cfg show_time_rest run_commands_rest help_text (Some a) w
  = (Val tt, with_log w' (log w' ++ ["Operation failed: " +:+ exc_str e]))
  /\ exit_status cfg show_time_rest run_commands_rest help_text (Some a) w = 0%Z.
Proof.
  intros H. unfold exit_status, main, try_except. rewrite H. done.
Qed.

End Top.

Lemma main_logs_failure_and_returns_witness :
  exit_status cfg_demo (fun _ => ret tt) (fun _ => ret tt) "usage"
    (Some (CollectImages args_out)) w_demo = 0%Z
  /\ log (snd (main cfg_demo (fun _ => ret tt) (fun _ => ret tt) "usage"
                 (Some (CollectImages args_out)) w_demo))
     = ["Operation failed: [Errno 17] File exists: '/srv/img/b+1.jpg' -> '/srv/img/out/0.jpg'"].
Proof.
  assert (Hr : fst (func cfg_demo (fun _ => ret tt) (fun _ => ret tt)
                      (CollectImages args_out) w_demo)
               = Raise (Exc FileExistsError
                          "[Errno 17] File exists: '/srv/img/b+1.jpg' -> '/srv/img/out/0.jpg'"))
    by (vm_compute; reflexivity).
  assert (Hl : log (snd (func cfg_demo (fun _ => ret tt) (fun _ => ret tt)
                           (CollectImages args_out) w_demo)) = [])
    by (vm_compute; reflexivity).
  destruct (func cfg_demo (fun _ => ret tt) (fun _ => ret tt) (CollectImages args_out) w_demo)
    as [r w'] eqn:E.
  cbn [fst snd] in Hr, Hl. subst r.
  destruct (main_logs_failure_and_returns cfg_demo (fun _ => ret tt) (fun _ => ret tt)
              "usage" _ _ _ _ E) as [Hm Hx].
  split; [exact Hx|]. rewrite Hm. cbn [snd log with_log exc_str]. rewrite Hl. reflexivity.
Defined.

(** C8 as the specification states it fails: the action fails with a
    [FileExistsError], and the process still ends with exit status 0. *)
Lemma failed_action_exits_with_zero :
  (exists e w', collect_images cfg_demo args_out w_demo = (Raise e, w')
                /\ exc_class e = FileExistsError)
  /\ exit_status cfg_demo (fun _ => ret tt) (fun _ => ret tt) "usage"
       (Some (CollectImages args_out)) w_demo = 0%Z.
Proof.
  split; [|vm_compute; reflexivity].
  assert (Hr : fst (collect_images cfg_demo args_out w_demo)
               = Raise (Exc FileExistsError
                          "[Errno 17] File exists: '/srv/img/b+1.jpg' -> '/srv/img/out/0.jpg'"))
    by (vm_compute; reflexivity).
  destruct (collect_images cfg_demo args_out w_demo) as [r w'] eqn:E.
  cbn [fst] in Hr. subst r. eexists _, w'. split; [reflexivity|reflexivity].
Qed.

Section Settings_module.
Variable cfg : settings.
Variable show_time_rest : string -> M unit.
Variable run_commands_rest : bool -> M unit.

(** C10 (as the code has it): [show_time] and [run_commands] start with
    [init()].  When [settings.py] is missing next to the script,
    [sample_settings.py] is a regular file there and the directory can
    take a new name, the rest of the action runs in a world where
    [settings.py] holds the bytes of the sample and one line was printed;
    when [settings.py] is a regular file, the rest runs in the world as it
    was.  [collect_images] is entered without that step: in its default
    mode no run of it writes a regular file at all, and in either mode (in
    copy mode as long as none of the numbered names of the target
    directory is a symbolic link) a [settings.py] that is a regular file
    after the run was that same file before it. *)
Theorem init_only_before_show_time_and_run_commands :
  (forall w kt data t k,
     stat w (join (script_dir w) ["sample_settings.py"]) = Found kt (File data t) ->
     stat w (join (script_dir w) ["settings.py"]) = Missing k ->
     dir_at (fs w) (removelast k) = true ->
     let w1 := with_stdout (with_fs w (<[k := File data (now w)]> (fs w)))
                 (stdout w ++ ["Created settings.py module from sample."]) in
     (forall event, show_time show_time_rest event w = show_time_rest event w1)
     /\ (forall execute, run_commands run_commands_rest execute w = run_commands_rest execute w1))
  /\ (forall w,
        isfile w (join (script_dir w) ["settings.py"]) = true ->
        (forall event, show_time show_time_rest event w = show_time_rest event w)
        /\ (forall execute, run_commands run_commands_rest execute w = run_commands_rest execute w))
  /\ (forall args w,
        func cfg show_time_rest run_commands_rest (CollectImages args) w
        = collect_images cfg args w
        /\ (copy args = false ->
            forall r w', collect_images cfg args w = (r, w') -> keeps_files w w')
        /\ ((copy args = true -> plain_targets cfg args w) ->
            forall d t,
              lstat (snd (collect_images cfg args w)) (join (script_dir w) ["settings.py"])
              = Some (File d t) ->
              lstat w (join (script_dir w) ["settings.py"]) = Some (File d t))).
Proof.
  split; [|split].
  - intros w kt data t k Ht Hp Hd w1.
    assert (Hi : init w = (Val tt, w1)).
    { unfold init. mstep. unfold isfile. rewrite Hp. cbn [negb].
      unfold copyfile. mstep. unfold samefile. rewrite Ht, Hp.
      unfold bind at 1. unfold bind at 1. unfold read_bytes. rewrite Ht.
      unfold write_bytes. rewrite Hp, Hd. reflexivity. }
    split; intros x; [unfold show_time|unfold run_commands]; by rewrite (bind_val _ _ _ _ _ Hi).
  - intros w Hp.
    assert (Hi : init w = (Val tt, w)).
    { unfold init. mstep. by rewrite Hp. }
    split; intros x; [unfold show_time|unfold run_commands]; by rewrite (bind_val _ _ _ _ _ Hi).
  - intros args w. split; [reflexivity|]. split.
    { intros Hc r w'. apply keeps_files_collect_images, Hc. }
    intros Hplain d t.
    destruct (same_place_collect_images cfg args w) as [Hcwd _].
    destruct (collect_images cfg args w) as [r w'] eqn:E. cbn [snd] in *.
    assert (Hne : join (script_dir w) ["settings.py"] <> "").
    { cbn [join foldl]. by apply join2_nonempty. }
    unfold lstat. rewrite !bool_decide_false by done.
    unfold key_of. rewrite Hcwd. fold (key_of w (join (script_dir w) ["settings.py"])).
    intros Hl. destruct (copy args) eqn:Hc.
    + destruct (writes_numbered_collect_images cfg args Hc w r w' E (Hplain eq_refl))
        as (_ & _ & Hf).
      destruct (Hf _ d t Hl) as [H|[i Hi]]; [done|]. exfalso.
      unfold key_of in Hi.
      rewrite (key_from_join_name _ _ _ settings_name_simple) in Hi.
      fold (key_of w (target_path cfg args i)) in Hi. rewrite key_target_path in Hi.
      apply app_inj_tail in Hi as [_ Hi]. by apply (jpg_name_not_settings i).
    + by apply (keeps_files_collect_images cfg args Hc w r w' E).
Qed.

End Settings_module.

Lemma init_only_before_show_time_and_run_commands_witness :
  lstat (snd (show_time (fun _ => ret tt) "sunset" w_demo)) "/opt/sunset/settings.py"
  = Some (File "TARGET_DIRECTORY = '/srv/img'" 100)
  /\ stdout (snd (run_commands (fun _ => ret tt) false w_demo))
     = ["Created settings.py module from sample."]
  /\ keeps_files w_demo (snd (collect_images cfg_demo args_new w_demo))
  /\ (forall d t,
        lstat (snd (collect_images cfg_demo args_copy w_demo))
          (join (script_dir w_demo) ["settings.py"]) = Some (File d t) ->
        lstat w_demo (join (script_dir w_demo) ["settings.py"]) = Some (File d t)).
Proof.
  assert (Ht : stat w_demo (join (script_dir w_demo) ["sample_settings.py"])
               = Found ["opt"; "sunset"; "sample_settings.py"]
                   (File "TARGET_DIRECTORY = '/srv/img'" 4)) by (vm_compute; reflexivity).
  assert (Hp : stat w_demo (join (script_dir w_demo) ["settings.py"])
               = Missing ["opt"; "sunset"; "settings.py"]) by (vm_compute; reflexivity).
  assert (Hd : dir_at (fs w_demo) (removelast ["opt"; "sunset"; "settings.py"]) = true)
    by (vm_compute; reflexivity).
  destruct (init_only_before_show_time_and_run_commands cfg_demo
              (fun _ => ret tt) (fun _ => ret tt)) as (Hnew & _ & Hcol).
  destruct (Hnew w_demo _ _ _ _ Ht Hp Hd) as [Hs Hr].
  split; [|split; [|split]].
  - rewrite Hs. vm_compute. reflexivity.
  - rewrite Hr. reflexivity.
  - destruct (collect_images cfg_demo args_new w_demo) as [r w'] eqn:E.
    apply (proj1 (proj2 (Hcol args_new w_demo)) eq_refl r w' E).
  - apply (proj2 (proj2 (Hcol args_copy w_demo))). intros _ i s.
    rewrite key_target_path. intros H.
    assert (Hin : format_d i +:+ ".jpg" ∈ children (fs w_demo) (key_of w_demo (target_dir cfg_demo args_copy))).
    { apply elem_of_children. eauto. }
    assert (Hnone : children (fs w_demo) (key_of w_demo (target_dir cfg_demo args_copy)) = [])
      by (vm_compute; reflexivity).
    rewrite Hnone in Hin. by apply elem_of_nil in Hin.
Defined.

(** C10 as the specification states it fails: next to a script without
    [sample_settings.py], [settings.py] does not exist, and [show_time]
    still creates none; [init()] raises [FileNotFoundError] instead. *)
Lemma no_sample_no_settings :
  let w := World fs_demo ["home"; "pi"] "/srv/img" [] [] [] 100 in
  isfile w (join (script_dir w) ["settings.py"]) = false
  /\ lstat w (join (script_dir w) ["settings.py"]) = None
  /\ fst (show_time (fun _ => ret tt) "sunset" w)
     = Raise (os_error ENOENT "/srv/img/sample_settings.py")
  /\ lstat (snd (show_time (fun _ => ret tt) "sunset" w)) (join (script_dir w) ["settings.py"])
     = None.
Proof.
  cbv zeta. repeat split; vm_compute; reflexivity.
Qed.

Lemma follow_subseteq (fuel : nat) (m m' : gmap key node) (k k' : key) n :
  m ⊆ m' -> follow fuel m k = Found k' n -> follow fuel m' k = Found k' n.
Proof.
  intros Hsub. revert k. induction fuel as [|fuel IH]; intros k; simpl;
    destruct (m !! k) as [nd|] eqn:E; try done;
    rewrite (lookup_weaken _ _ _ _ E Hsub); destruct nd; try done;
    case_bool_decide; try done. apply IH.
Qed.




(** The whole run, from a prepared target directory with free names. *)
Lemma link_stage_run cfg args w w1 found times :
  isdir w (source_dir cfg) = true ->
  prepare cfg args w = (Val true, w1) ->
  isdir w1 (target_dir cfg args) = true ->
  glob (pattern cfg args) w1 = (Val found, w1) ->
  Forall2 (fun p t => getmtime p w1 = (Val t, w1)) found times ->
  Forall (fun p => is_Some (made (copy args) w1 p)) found ->
  (forall i, i < length found -> fs w1 !! key_of w1 (target_path cfg args i) = None) ->
  exists w2,
    collect_images cfg args w = (Val tt, w2)
    /\ cwd w2 = cwd w1
    /\ fs w1 ⊆ fs w2
    /\ (forall k p, (snd <$> sort_by_key (zip times found)) !! k = Some p ->
          fs w2 !! key_of w1 (target_path cfg args k) = made (copy args) w1 p)
    /\ (forall k, (forall i, i < length found -> k <> key_of w1 (target_path cfg args i)) ->
          fs w2 !! k = fs w1 !! k).
Proof.
  intros Hsrc Hprep Htd Hglob Htimes Hmade Hfree.
  pose proof (Forall2_length _ _ _ Htimes) as Hlen.
  set (files := snd <$> sort_by_key (zip times found)).
  assert (Hperm : files ≡ₚ found) by (apply sorted_files_perm; lia).
  assert (Hlenf : length files = length found) by by rewrite Hperm.
  destruct (link_loop cfg args files 0 w1) as (m' & Hrun & Hnew & Hold).
  { by apply isdir_dir_at. }
  { intros i Hi. apply Hfree. lia. }
  { by rewrite Hperm. }
  set (w2 := with_fs (with_stdout w1 (stdout w1 ++ imap (fun i _ => target_path cfg args (0 + i)) files)) m') in Hrun.
  assert (Hlink : exists line, link_files cfg args w1
                               = (Val tt, with_stdout w2 (stdout w2 ++ [line]))
                               \/ (files = []
                                   /\ link_files cfg args w1
                                      = (Val tt, with_stdout w1 (stdout w1 ++ [line])))).
  { unfold link_files. rewrite (bind_val _ _ _ _ _ Hglob).
    rewrite (bind_val _ _ _ _ _ (sorted_getmtime _ _ _ Htimes)). fold files.
    destruct files as [|f0 files'] eqn:Ef.
    - eexists. right. split; [done|]. reflexivity.
    - cbn [length Nat.ltb Nat.leb].
      change (imap pair (f0 :: files')) with (imap (fun i => pair (0 + i)) (f0 :: files')).
      rewrite (bind_val _ _ _ _ _ Hrun). destruct (copy args); eexists; left; reflexivity. }
  assert (Hold' : forall k, (forall i, i < length found -> k <> key_of w1 (target_path cfg args i)) ->
                            m' !! k = fs w1 !! k).
  { intros k Hk. apply (Hold k). intros i Hi. apply Hk. lia. }
  assert (Hsub : fs w1 ⊆ m').
  { apply map_subseteq_spec. intros k n Hk.
    destruct (decide (k ∈ (fun i => key_of w1 (target_path cfg args i)) <$> seq 0 (length found)))
      as [Hin|Hnot].
    - apply list_elem_of_fmap in Hin as (i & -> & Hi). apply elem_of_seq in Hi.
      rewrite Hfree in Hk by lia. done.
    - rewrite Hold'; [done|]. intros i Hi ->. apply Hnot.
      apply list_elem_of_fmap. exists i. split; [done|]. apply elem_of_seq. lia. }
  assert (Hci : forall w3, link_files cfg args w1 = (Val tt, w3) ->
                           collect_images cfg args w = (Val tt, w3)).
  { intros w3 H3. unfold collect_images. mstep. rewrite Hsrc.
    by rewrite (bind_val _ _ _ _ _ Hprep). }
  destruct Hlink as [line [Hlink|[Hnil Hlink]]].
  - exists (with_stdout w2 (stdout w2 ++ [line])). split; [by apply Hci|].
    split; [done|]. split; [done|]. split; [|done].
    intros k p Hk. apply (Hnew k p Hk).
  - exists (with_stdout w1 (stdout w1 ++ [line])). split; [by apply Hci|].
    split; [done|]. split; [done|]. split.
    + intros k p Hk. rewrite Hnil in Hk. done.
    + done.
Qed.




Lemma follow_file (fuel : nat) (m : gmap key node) (k : key) d t :
  m !! k = Some (File d t) -> follow fuel m k = Found k (File d t).
Proof. intros H. destruct fuel; simpl; by rewrite H. Qed.

Lemma stat_Found w p k n : stat w p = Found k n -> fs w !! k = Some n.
Proof. unfold stat. case_bool_decide; [done|]. apply follow_Found_present. Qed.

(** C4 (as the code has it): in a run that gets to the linking stage
    with the target directory in place and the numbered names free, every
    matched file gets an entry of its own.  In copy mode, where the
    matched files are regular files, the entry is a new regular file that
    holds the bytes of the matched file and reads back as those bytes,
    while the matched file is as it was; in the default mode the entry is
    a symbolic link whose target is the path of the matched file as
    [glob] gave it, not a copy. *)
Theorem collect_images_copies_or_links cfg args w w1 found times :
  isdir w (source_dir cfg) = true ->
  prepare cfg args w = (Val true, w1) ->
  isdir w1 (target_dir cfg args) = true ->
  glob (pattern cfg args) w1 = (Val found, w1) ->
  Forall2 (fun p t => getmtime p w1 = (Val t, w1)) found times ->
  (copy args = true ->
   Forall (fun p => exists ks data t, stat w1 p = Found ks (File data t)) found) ->
  (forall i, i < length found -> fs w1 !! key_of w1 (target_path cfg args i) = None) ->
  exists w2,
    collect_images cfg args w = (Val tt, w2)
    /\ forall p, p ∈ found ->
         exists k, k < length found
           /\ (copy args = true ->
               exists ks data t,
                 stat w1 p = Found ks (File data t)
                 /\ lstat w2 (target_path cfg args k) = Some (File data (now w1))
                 /\ read_bytes (target_path cfg args k) w2 = (Val data, w2)
                 /\ stat w2 p = Found ks (File data t)
                 /\ key_of w1 (target_path cfg args k) <> ks)
           /\ (copy args = false ->
               lstat w2 (target_path cfg args k) = Some (Symlink p)).
Proof.
  intros Hsrc Hprep Htd Hglob Htimes Hfiles Hfree.
  pose proof (Forall2_length _ _ _ Htimes) as Hlen.
  assert (Hnonempty : Forall (fun p => p <> "") found).
  { apply Forall_forall. intros p [i Hi]%list_elem_of_lookup_1.
    destruct (Forall2_lookup_l _ _ _ _ _ Htimes Hi) as (t & _ & Ht).
    by eapply getmtime_nonempty. }
  assert (Hmade : Forall (fun p => is_Some (made (copy args) w1 p)) found).
  { unfold made. destruct (copy args).
    - eapply Forall_impl; [exact (Hfiles eq_refl)|]. intros p (ks & data & t & ->). eauto.
    - eapply Forall_impl; [exact Hnonempty|]. intros p Hp. rewrite bool_decide_false by done. eauto. }
  destruct (link_stage_run cfg args w w1 found times Hsrc Hprep Htd Hglob Htimes Hmade Hfree)
    as (w2 & Hrun & Hcwd & Hsub & Hnew & Hold).
  exists w2. split; [done|]. intros p Hp.
  assert (Hin : p ∈ snd <$> sort_by_key (zip times found)).
  { rewrite sorted_files_perm; [done|lia]. }
  apply list_elem_of_lookup_1 in Hin as [k Hk]. exists k.
  assert (Hlt : k < length found).
  { apply lookup_lt_Some in Hk. rewrite (sorted_files_perm times found) in Hk; [done|lia]. }
  split; [done|].
  pose proof (target_path_nonempty cfg args k) as Hne.
  assert (Hkey : forall q, key_of w2 q = key_of w1 q).
  { intros q. unfold key_of. by rewrite Hcwd. }
  pose proof (Hnew k p Hk) as Hentry. unfold made in Hentry.
  split; intros Hc; rewrite Hc in Hentry.
  - destruct (proj1 (Forall_forall _ _) (Hfiles Hc) p Hp) as (ks & data & t & Hs).
    rewrite Hs in Hentry. exists ks, data, t. split; [done|].
    assert (Hstat : stat w2 (target_path cfg args k)
                    = Found (key_of w1 (target_path cfg args k)) (File data (now w1))).
    { unfold stat. rewrite bool_decide_false by done. rewrite Hkey.
      by apply follow_file. }
    split; [|split; [|split]].
    + unfold lstat. rewrite bool_decide_false by done. by rewrite Hkey.
    + unfold read_bytes. by rewrite Hstat.
    + assert (Hpne : p <> "") by (by apply (proj1 (Forall_forall _ _) Hnonempty)).
      unfold stat in Hs |- *. rewrite bool_decide_false in Hs by done.
      rewrite bool_decide_false by done. rewrite Hkey.
      by apply (follow_subseteq _ _ _ _ _ _ Hsub).
    + intros E. apply stat_Found in Hs. rewrite <- E, Hfree in Hs; done.
  - assert (Hpne : p <> "") by (by apply (proj1 (Forall_forall _ _) Hnonempty)).
    rewrite bool_decide_false in Hentry by done.
    unfold lstat. rewrite bool_decide_false by done. by rewrite Hkey.
Qed.

Lemma collect_images_copies_or_links_witness :
  exists w2,
    collect_images cfg_demo args_copy w_demo = (Val tt, w2)
    /\ forall p, p ∈ ["/srv/img/e+1.jpg"; "/srv/img/d+1.jpg"; "/srv/img/c+1.jpg";
                      "/srv/img/b+1.jpg"; "/srv/img/a+1.jpg"] ->
         exists k, k < 5
           /\ (copy args_copy = true ->
               exists ks data t,
                 stat w_demo p = Found ks (File data t)
                 /\ lstat w2 (target_path cfg_demo args_copy k) = Some (File data (now w_demo))
                 /\ read_bytes (target_path cfg_demo args_copy k) w2 = (Val data, w2)
                 /\ stat w2 p = Found ks (File data t)
                 /\ key_of w_demo (target_path cfg_demo args_copy k) <> ks)
           /\ (copy args_copy = false ->
               lstat w2 (target_path cfg_demo args_copy k) = Some (Symlink p)).
Proof.
  assert (Htd : isdir w_demo (target_dir cfg_demo args_copy) = true) by (vm_compute; reflexivity).
  apply (collect_images_copies_or_links cfg_demo args_copy w_demo w_demo
           ["/srv/img/e+1.jpg"; "/srv/img/d+1.jpg"; "/srv/img/c+1.jpg";
            "/srv/img/b+1.jpg"; "/srv/img/a+1.jpg"] [40; 50; 20; 10; 30]%Z).
  - vm_compute. reflexivity.
  - unfold prepare. mstep. rewrite Htd. reflexivity.
  - exact Htd.
  - unfold glob, ask. f_equal.
  - repeat (constructor; [reflexivity|]). constructor.
  - intros _. repeat (constructor; [eexists _, _, _; vm_compute; reflexivity|]). constructor.
  - intros i Hi. do 5 (destruct i as [|i]; [vm_compute; reflexivity|]). simpl in Hi. lia.
Defined.

(** C4 as the specification states it fails: five files match, but the
    target directory still holds the link 0.jpg of an earlier run; in
    copy mode without [--purge] the first [shutil.copyfile] finds source
    and target to be the same file and raises, so no matched file is
    copied: 0.jpg is still the link and 1.jpg .. 4.jpg do not exist. *)
Lemma leftover_link_stops_the_copying :
  let args := CollectArgs 1 "out" "" false false true in
  (exists found,
     glob (pattern cfg_demo args) w_demo = (Val found, w_demo)
     /\ "/srv/img/c+1.jpg" ∈ found)
  /\ fst (collect_images cfg_demo args w_demo)
     = Raise (Exc SameFileError "'/srv/img/b+1.jpg' and '/srv/img/out/0.jpg' are the same file")
  /\ lstat (snd (collect_images cfg_demo args w_demo)) "/srv/img/out/0.jpg"
     = Some (Symlink "/srv/img/b+1.jpg")
  /\ lstat (snd (collect_images cfg_demo args w_demo)) "/srv/img/out/1.jpg" = None
  /\ lstat (snd (collect_images cfg_demo args w_demo)) "/srv/img/out/2.jpg" = None
  /\ lstat (snd (collect_images cfg_demo args w_demo)) "/srv/img/out/3.jpg" = None
  /\ lstat (snd (collect_images cfg_demo args w_demo)) "/srv/img/out/4.jpg" = None.
Proof.
  cbv zeta. split.
  - eexists. split; [reflexivity|].
    assert (E : iglob (S (String.length (pattern cfg_demo (CollectArgs 1 "out" "" false false true))))
                  w_demo (pattern cfg_demo (CollectArgs 1 "out" "" false false true)) false
                = ["/srv/img/e+1.jpg"; "/srv/img/d+1.jpg"; "/srv/img/c+1.jpg";
                   "/srv/img/b+1.jpg"; "/srv/img/a+1.jpg"]) by (vm_compute; reflexivity).
    rewrite E. do 2 (apply elem_of_cons; right). apply elem_of_cons. by left.
  - repeat split; vm_compute; reflexivity.
Qed.

Section No_rollback.
Variable cfg : settings.
Variable show_time_rest : string -> M unit.
Variable run_commands_rest : bool -> M unit.
Variable help_text : string.

(** C7: when the target directory has been made ready (purged, if that
    was asked for) and the stage that finds, orders and links the files
    then raises, [collect_images] raises the same exception in the world
    that stage left, and [main] only adds its line to the log: nothing
    puts back what the purge removed.  A name that the purge removed is
    afterwards still free, or holds what the failed stage itself wrote
    there: in the default mode a new symbolic link under one of the
    numbered names, in copy mode a regular file written during this run. *)
Theorem purge_is_not_rolled_back args w w1 e w2 :
  isdir w (source_dir cfg) = true ->
  prepare cfg args w = (Val true, w1) ->
  link_files cfg args w1 = (Raise e, w2) ->
  collect_images cfg args w = (Raise e, w2)
  /\ main cfg show_time_rest run_commands_rest help_text (Some (CollectImages args)) w
     = (Val tt, with_log w2 (log w2 ++ ["Operation failed: " +:+ exc_str e]))
  /\ forall k,
       is_Some (fs w !! k) -> fs w1 !! k = None ->
       fs w2 !! k = None
       \/ (copy args = false
           /\ (exists i, k = key_of w1 (target_path cfg args i))
           /\ exists s, fs w2 !! k = Some (Symlink s))
       \/ (copy args = true /\ exists data, fs w2 !! k = Some (File data (now w1))).
Proof.
  intros Hsrc Hprep Hlink.
  assert (Hrun : collect_images cfg args w = (Raise e, w2)).
  { unfold collect_images. mstep. rewrite Hsrc. by rewrite (bind_val _ _ _ _ _ Hprep). }
  split; [done|]. split.
  - unfold main, try_except, func. by rewrite Hrun.
  - intros k _ Hgone. destruct (copy args) eqn:Hc.
    + destruct (only_copies_link_files cfg args Hc _ _ _ Hlink) as [_ H].
      destruct (H k) as [E|[Hd _]]; [left; congruence|]. right. right. done.
    + destruct (only_links_link_files cfg args Hc _ _ _ Hlink) as [_ H].
      destruct (H k) as [E|(_ & Hi & Hs)]; [left; congruence|]. right. left. done.
Qed.

End No_rollback.

Lemma purge_is_not_rolled_back_witness :
  lstat w_stale "/srv/img/out/notes.txt" = Some (File "keep" 6)
  /\ (exists e w2,
        collect_images cfg_demo args_purge_silent w_stale = (Raise e, w2)
        /\ exc_class e = FileNotFoundError
        /\ (fs w2 !! ["srv"; "img"; "out"; "notes.txt"] = None
            \/ (copy args_purge_silent = false
                /\ (exists i, ["srv"; "img"; "out"; "notes.txt"]
                              = key_of w2 (target_path cfg_demo args_purge_silent i))
                /\ exists s, fs w2 !! ["srv"; "img"; "out"; "notes.txt"] = Some (Symlink s))
            \/ (copy args_purge_silent = true
                /\ exists data, fs w2 !! ["srv"; "img"; "out"; "notes.txt"]
                                = Some (File data (now w2))))).
Proof.
  split; [vm_compute; reflexivity|].
  assert (Hgo : fst (prepare cfg_demo args_purge_silent w_stale) = Val true)
    by (vm_compute; reflexivity).
  assert (Hgone : fs (snd (prepare cfg_demo args_purge_silent w_stale))
                    !! ["srv"; "img"; "out"; "notes.txt"] = None)
    by (vm_compute; reflexivity).
  assert (Hr : fst (link_files cfg_demo args_purge_silent
                      (snd (prepare cfg_demo args_purge_silent w_stale)))
               = Raise (Exc FileNotFoundError
                          "[Errno 2] No such file or directory: '/srv/img/z+1.jpg'"))
    by (vm_compute; reflexivity).
  assert (Hcwd : cwd (snd (link_files cfg_demo args_purge_silent
                             (snd (prepare cfg_demo args_purge_silent w_stale))))
                 = cwd (snd (prepare cfg_demo args_purge_silent w_stale)))
    by (vm_compute; reflexivity).
  assert (Hnow : now (snd (link_files cfg_demo args_purge_silent
                             (snd (prepare cfg_demo args_purge_silent w_stale))))
                 = now (snd (prepare cfg_demo args_purge_silent w_stale)))
    by (vm_compute; reflexivity).
  destruct (prepare cfg_demo args_purge_silent w_stale) as [r1 w1] eqn:Hprep.
  cbn [fst snd] in Hgo, Hgone, Hr, Hcwd, Hnow. subst r1.
  destruct (link_files cfg_demo args_purge_silent w1) as [r2 w2] eqn:Hlink.
  cbn [fst snd] in Hr, Hcwd, Hnow. subst r2.
  destruct (purge_is_not_rolled_back cfg_demo (fun _ => ret tt) (fun _ => ret tt) "usage"
              args_purge_silent w_stale w1 _ w2 ltac:(vm_compute; reflexivity) Hprep Hlink)
    as (Hrun & _ & Hk).
  eexists _, w2. split; [exact Hrun|]. split; [reflexivity|].
  unfold key_of. rewrite Hcwd, Hnow. fold (key_of w1).
  apply Hk; [|exact Hgone]. vm_compute. eauto.
Defined.

(** C5 (as the code has it): let the directory searched be the join of
    the source directory and the sub-directory, with no [*], [?] or [[]
    in its path.  [glob] returns a path exactly when it is the directory
    part of the pattern joined with the name of an entry of that directory
    which does not start with a dot and ends with the offset, written with
    its sign, followed by ".jpg"; nothing is found when the directory does
    not exist.  The directory part of the pattern names the directory
    searched. *)
Theorem glob_selects_by_suffix cfg args w p :
  source_dir cfg <> "" ->
  has_magic (join (source_dir cfg) [subdir args]) = false ->
  (exists found,
     glob (pattern cfg args) w = (Val found, w)
     /\ (p ∈ found <->
         exists name,
           p = join (dirname (pattern cfg args)) [name]
           /\ isdir w (join (source_dir cfg) [subdir args]) = true
           /\ is_Some (fs w !! (key_of w (join (source_dir cfg) [subdir args]) ++ [name]))
           /\ ishidden name = false
           /\ ends_with (format_plus_d (offset args) +:+ ".jpg") name = true))
  /\ key_of w (dirname (pattern cfg args)) = key_of w (join (source_dir cfg) [subdir args]).
Proof.
  intros Hsrc Hmagic. rewrite pattern_join2.
  set (d := join (source_dir cfg) [subdir args]) in *.
  set (sfx := format_plus_d (offset args) +:+ ".jpg").
  change ("*" +:+ format_plus_d (offset args) +:+ ".jpg") with ("*" +:+ sfx).
  destruct (suffix_plain (offset args)) as [Hs Hm]. fold sfx in Hs, Hm.
  assert (Hd : d <> "").
  { unfold d. cbn [join foldl]. unfold join2. destruct (starts_with_slash (subdir args)) eqn:E.
    - intros E'. by rewrite E' in E.
    - destruct (_ || _); intros E'%(f_equal String.length);
        rewrite !append_length in E'; destruct (source_dir cfg); simpl in E'; done || lia. }
  assert (Hb : has_slash ("*" +:+ sfx) = false) by (by rewrite append_cons, append_nil; simpl).
  split; [|apply key_from_dirname_join2; done].
  eexists. split; [reflexivity|].
  rewrite iglob_pattern; try done.
  rewrite list_elem_of_fmap. split.
  - intros (name & -> & [Hf [Hh Hin]%list_elem_of_filter]%list_elem_of_filter).
    exists name. split; [done|].
    destruct (isdir w d); [|by apply elem_of_nil in Hin].
    apply elem_of_children in Hin. rewrite fnmatch_suffix in Hf by done. done.
  - intros (name & -> & Hdir & Hin & Hh & He). exists name. split; [done|].
    apply list_elem_of_filter. rewrite fnmatch_suffix by done. split; [done|].
    apply list_elem_of_filter. split; [done|]. rewrite Hdir. by apply elem_of_children.
Qed.

Lemma glob_selects_by_suffix_witness :
  (exists found,
     glob (pattern cfg_demo args_new) w_demo = (Val found, w_demo)
     /\ ("/srv/img/b+1.jpg" ∈ found <->
         exists name,
           "/srv/img/b+1.jpg" = join (dirname (pattern cfg_demo args_new)) [name]
           /\ isdir w_demo (join (source_dir cfg_demo) [subdir args_new]) = true
           /\ is_Some (fs w_demo
                        !! (key_of w_demo (join (source_dir cfg_demo) [subdir args_new]) ++ [name]))
           /\ ishidden name = false
           /\ ends_with (format_plus_d (offset args_new) +:+ ".jpg") name = true))
  /\ key_of w_demo (dirname (pattern cfg_demo args_new))
     = key_of w_demo (join (source_dir cfg_demo) [subdir args_new]).
Proof.
  apply (glob_selects_by_suffix cfg_demo args_new w_demo "/srv/img/b+1.jpg").
  - discriminate.
  - reflexivity.
Defined.

(** C5 as the specification states it fails: the file [.h+1.jpg] lies in
    the source directory and its name ends with "+1.jpg", yet [glob] does
    not select it, because the name starts with a dot. *)
Lemma hidden_file_is_not_selected :
  lstat w_demo "/srv/img/.h+1.jpg" = Some (File "HHH" 5)
  /\ ends_with (format_plus_d (offset args_new) +:+ ".jpg") ".h+1.jpg" = true
  /\ exists found,
       glob (pattern cfg_demo args_new) w_demo = (Val found, w_demo)
       /\ "/srv/img/.h+1.jpg" ∉ found.
Proof.
  split; [vm_compute; reflexivity|]. split; [vm_compute; reflexivity|].
  eexists. split; [reflexivity|].
  assert (E : iglob (S (String.length (pattern cfg_demo args_new))) w_demo
                (pattern cfg_demo args_new) false
              = ["/srv/img/e+1.jpg"; "/srv/img/d+1.jpg"; "/srv/img/c+1.jpg";
                 "/srv/img/b+1.jpg"; "/srv/img/a+1.jpg"]) by (vm_compute; reflexivity).
  rewrite E. intros H.
  repeat (apply elem_of_cons in H as [H|H]; [discriminate|]). by apply elem_of_nil in H.
Qed.

(** * Further properties of the code *)

(** X1: no run of [collect_images], in either mode, with or without a
    purge, and whether it returns or raises, removes or replaces a
    directory: [os.remove] refuses directories and every write goes to a
    free name or a regular file. *)
Theorem collect_images_removes_no_directory cfg args w k t :
  fs w !! k = Some (Dir t) ->
  fs (snd (collect_images cfg args w)) !! k = Some (Dir t).
Proof.
  destruct (collect_images cfg args w) as [r w'] eqn:E.
  apply (keeps_dirs_collect_images cfg args w r w' E).
Qed.

Lemma collect_images_removes_no_directory_witness :
  fs (snd (collect_images cfg_demo args_purge_silent w_demo)) !! ["srv"; "img"; "out"]
  = Some (Dir 2).
Proof.
  apply (collect_images_removes_no_directory cfg_demo args_purge_silent w_demo).
  vm_compute. reflexivity.
Defined.

(** X2: without [--purge], or with [--silent], [collect_images] reads
    nothing from standard input and writes nothing to the log, whatever
    else happens. *)
Theorem collect_images_unasked_reads_no_input cfg args w :
  purge args = false \/ silent args = true ->
  stdin (snd (collect_images cfg args w)) = stdin w
  /\ log (snd (collect_images cfg args w)) = log w.
Proof.
  intros H. destruct (collect_images cfg args w) as [r w'] eqn:E.
  apply (steps_collect_images_unasked quiet quiet_refl quiet_trans quiet_stdout quiet_fs
           cfg args H w r w' E).
Qed.

Lemma collect_images_unasked_reads_no_input_witness :
  stdin (snd (collect_images cfg_demo args_purge_silent (with_stdin w_demo ["n"]))) = ["n"]
  /\ log (snd (collect_images cfg_demo args_purge_silent (with_stdin w_demo ["n"]))) = [].
Proof.
  apply (collect_images_unasked_reads_no_input cfg_demo args_purge_silent
           (with_stdin w_demo ["n"])).
  right. reflexivity.
Defined.

(** X3: when the purge asks for confirmation and standard input is at
    its end, [input()] raises [EOFError] after the two lines of the
    question were printed; nothing has been deleted. *)
Theorem prompt_at_end_of_input cfg args w g :
  isdir w (source_dir cfg) = true ->
  isdir w (target_dir cfg args) = true ->
  purge args = true ->
  silent args = false ->
  glob (join (target_dir cfg args) ["*"]) w = (Val g, w) ->
  g <> [] ->
  stdin w = [] ->
  collect_images cfg args w
  = (Raise (Exc EOFError "EOF when reading a line"),
     with_stdout w (stdout w ++ ["All files in target directory " +:+ target_dir cfg args
                                 +:+ " will be deleted."; "Do you want to continue? (y/n)"])).
Proof.
  intros Hsrc Htd Hp Hsi Hg Hne Hin.
  unfold collect_images. mstep. rewrite Hsrc.
  unfold prepare. mstep. rewrite Htd. cbn [negb]. mstep. rewrite Hp.
  unfold purge_target. mstep. rewrite (bind_val _ _ _ _ _ Hg).
  destruct g as [|p g']; [done|]. cbn [length Nat.ltb Nat.leb].
  rewrite Hsi. cbn [negb]. mstep.
  unfold bind at 1. unfold input at 1. cbn [stdin with_stdout]. rewrite Hin.
  f_equal. unfold with_stdout. cbn. by rewrite <- app_assoc.
Qed.

Lemma prompt_at_end_of_input_witness :
  fst (collect_images cfg_demo args_purge w_demo)
  = Raise (Exc EOFError "EOF when reading a line")
  /\ lstat (snd (collect_images cfg_demo args_purge w_demo)) "/srv/img/out/notes.txt"
     = Some (File "keep" 6).
Proof.
  assert (Hg : glob (join (target_dir cfg_demo args_purge) ["*"]) w_demo
               = (Val ["/srv/img/out/notes.txt"; "/srv/img/out/0.jpg"], w_demo)).
  { unfold glob, ask. f_equal. }
  rewrite (prompt_at_end_of_input cfg_demo args_purge w_demo
             ["/srv/img/out/notes.txt"; "/srv/img/out/0.jpg"]
             eq_refl eq_refl eq_refl eq_refl Hg).
  - split; [reflexivity|]. vm_compute. reflexivity.
  - discriminate.
  - reflexivity.
Defined.

(** X4: in the default mode a name that is already taken in the target
    directory stops the loop: the path is printed, [os.symlink] raises
    [FileExistsError] with both paths in the message, and the file system
    is left as it was. *)
Theorem symlink_refuses_taken_name cfg args w index path n :
  copy args = false ->
  lstat w (target_path cfg args index) = Some n ->
  link_one cfg args (index, path) w
  = (Raise (Exc FileExistsError
              ("[Errno 17] File exists: " +:+ repr path +:+ " -> "
               +:+ repr (target_path cfg args index))),
     with_stdout w (stdout w ++ [target_path cfg args index])).
Proof.
  intros Hc Hn. unfold link_one. rewrite bind_print.
  unfold perform_operation. rewrite Hc. unfold symlink.
  change (lstat (with_stdout w ?l)) with (lstat w). by rewrite Hn.
Qed.

Lemma symlink_refuses_taken_name_witness :
  link_one cfg_demo args_out (0, "/srv/img/b+1.jpg") w_demo
  = (Raise (Exc FileExistsError
              ("[Errno 17] File exists: " +:+ repr "/srv/img/b+1.jpg" +:+ " -> "
               +:+ repr (target_path cfg_demo args_out 0))),
     with_stdout w_demo (stdout w_demo ++ [target_path cfg_demo args_out 0])).
Proof.
  apply (symlink_refuses_taken_name cfg_demo args_out w_demo 0 "/srv/img/b+1.jpg"
           (Symlink "/srv/img/b+1.jpg")).
  - reflexivity.
  - vm_compute. reflexivity.
Defined.

(** X5: in copy mode a target name that leads to a regular file, directly
    or through symbolic links, is written over: the file it leads to gets
    the bytes of the source and nothing is raised.  When it leads to the
    source itself, [shutil.copyfile] raises [SameFileError] instead and
    writes nothing. *)
Theorem copy_writes_over_existing_file cfg args w index path ks data t kd d' t' :
  copy args = true ->
  stat w path = Found ks (File data t) ->
  stat w (target_path cfg args index) = Found kd (File d' t') ->
  (ks <> kd ->
   link_one cfg args (index, path) w
   = (Val tt, with_fs (with_stdout w (stdout w ++ [target_path cfg args index]))
                (<[kd := File data (now w)]> (fs w))))
  /\ (ks = kd ->
      link_one cfg args (index, path) w
      = (Raise (Exc SameFileError
                  (repr path +:+ " and " +:+ repr (target_path cfg args index)
                   +:+ " are the same file")),
         with_stdout w (stdout w ++ [target_path cfg args index]))).
Proof.
  intros Hc Hsrc Hdst.
  assert (Hs : forall l q, stat (with_stdout w l) q = stat w q) by done.
  split; intros Hk; unfold link_one; rewrite bind_print;
    unfold perform_operation; rewrite Hc; unfold copyfile; rewrite bind_ask;
    unfold samefile; rewrite !Hs, Hsrc, Hdst.
  - rewrite bool_decide_false by done. unfold bind, read_bytes. rewrite Hs, Hsrc.
    unfold write_bytes. rewrite Hs, Hdst. reflexivity.
  - rewrite bool_decide_true by done. reflexivity.
Qed.

Lemma copy_writes_over_existing_file_witness :
  lstat (snd (link_one cfg_demo args_purge_copy (0, "/srv/img/a+1.jpg") w_demo))
    "/srv/img/b+1.jpg" = Some (File "AAA" 100)
  /\ fst (link_one cfg_demo args_purge_copy (0, "/srv/img/b+1.jpg") w_demo)
     = Raise (Exc SameFileError
                "'/srv/img/b+1.jpg' and '/srv/img/out/0.jpg' are the same file").
Proof.
  assert (Hd : stat w_demo (target_path cfg_demo args_purge_copy 0)
               = Found ["srv"; "img"; "b+1.jpg"] (File "BBB" 10)) by (vm_compute; reflexivity).
  assert (Ha : stat w_demo "/srv/img/a+1.jpg" = Found ["srv"; "img"; "a+1.jpg"] (File "AAA" 30))
    by (vm_compute; reflexivity).
  assert (Hb : stat w_demo "/srv/img/b+1.jpg" = Found ["srv"; "img"; "b+1.jpg"] (File "BBB" 10))
    by (vm_compute; reflexivity).
  split.
  - rewrite (proj1 (copy_writes_over_existing_file cfg_demo args_purge_copy w_demo 0 _ _ _ _ _ _ _
                      eq_refl Ha Hd)) by discriminate.
    vm_compute. reflexivity.
  - rewrite (proj2 (copy_writes_over_existing_file cfg_demo args_purge_copy w_demo 0 _ _ _ _ _ _ _
                      eq_refl Hb Hd)) by reflexivity.
    reflexivity.
Defined.

Lemma getmtime_same_world p w r w' : getmtime p w = (r, w') -> w' = w.
Proof.
  unfold getmtime. destruct (stat w p) as [k [| |]| |]; by intros [= _ <-].
Qed.

Lemma map_m_getmtime_inv l : forall w ts w',
  map_m getmtime l w = (Val ts, w') ->
  Forall2 (fun p t => getmtime p w = (Val t, w)) l ts.
Proof.
  induction l as [|p l IH]; intros w ts w'; simpl.
  - intros [= <- _]. constructor.
  - unfold bind at 1. destruct (getmtime p w) as [[t|e] w1] eqn:Ep; [|done].
    pose proof (getmtime_same_world _ _ _ _ Ep) as ->.
    unfold bind at 1. destruct (map_m getmtime l w) as [[ts'|e] w2] eqn:El; [|done].
    intros [= <- _]. constructor; [done|]. by eapply IH.
Qed.

(** X6: the modification times are read before anything is linked.  When
    one of the matched paths has none, such as a symbolic link to a file
    that is gone, the stage raises and the world is the one it started in:
    no link or copy was made and nothing was printed. *)
Theorem unreadable_match_stops_before_linking cfg args w found p :
  glob (pattern cfg args) w = (Val found, w) ->
  p ∈ found ->
  (forall t, getmtime p w <> (Val t, w)) ->
  exists e, link_files cfg args w = (Raise e, w).
Proof.
  intros Hg Hp Hno. unfold link_files. rewrite (bind_val _ _ _ _ _ Hg).
  unfold sorted. rewrite bind_assoc.
  destruct (map_m getmtime found w) as [[ts|e] w'] eqn:E.
  - apply map_m_getmtime_inv in E.
    apply list_elem_of_lookup_1 in Hp as [i Hi].
    destruct (Forall2_lookup_l _ _ _ _ _ E Hi) as (t & _ & Ht). by destruct (Hno t).
  - exists e. rewrite (bind_raise _ _ _ _ _ E). f_equal. symmetry.
    exact (steps_map_m eq (fun w => eq_refl) (fun _ _ _ H1 H2 => eq_trans H1 H2)
             getmtime found
             (fun q w0 r w1 H => eq_sym (getmtime_same_world q w0 r w1 H)) w _ _ E).
Qed.

Lemma unreadable_match_stops_before_linking_witness :
  exists e, link_files cfg_demo args_new w_stale = (Raise e, w_stale).
Proof.
  apply (unreadable_match_stops_before_linking cfg_demo args_new w_stale
           ["/srv/img/z+1.jpg"; "/srv/img/e+1.jpg"; "/srv/img/d+1.jpg";
            "/srv/img/c+1.jpg"; "/srv/img/b+1.jpg"; "/srv/img/a+1.jpg"] "/srv/img/z+1.jpg").
  - unfold glob, ask. f_equal.
  - apply elem_of_cons. by left.
  - intros t H.
    assert (Hr : fst (getmtime "/srv/img/z+1.jpg" w_stale)
                 = Raise (os_error ENOENT "/srv/img/z+1.jpg")) by (vm_compute; reflexivity).
    rewrite H in Hr. discriminate.
Defined.

Section Missing_sample.
Variable cfg : settings.
Variable show_time_rest : string -> M unit.
Variable run_commands_rest : bool -> M unit.
Variable help_text : string.

(** X7: when neither [settings.py] nor [sample_settings.py] is there,
    [init()] fails in [shutil.copyfile] with [FileNotFoundError] for the
    sample; [show_time] and [run_commands] end there, before their own
    work, with nothing created or printed, and [main] logs the failure. *)
Theorem init_without_sample w k :
  isfile w (join (script_dir w) ["settings.py"]) = false ->
  stat w (join (script_dir w) ["sample_settings.py"]) = Missing k ->
  (forall event,
     show_time show_time_rest event w
     = (Raise (os_error ENOENT (join (script_dir w) ["sample_settings.py"])), w))
  /\ (forall execute,
        run_commands run_commands_rest execute w
        = (Raise (os_error ENOENT (join (script_dir w) ["sample_settings.py"])), w))
  /\ (forall event,
        main cfg show_time_rest run_commands_rest help_text (Some (ShowTime event)) w
        = (Val tt, with_log w (log w ++ ["Operation failed: [Errno 2] No such file or directory: "
                                         +:+ repr (join (script_dir w) ["sample_settings.py"])]))).
Proof.
  intros Hp Ht.
  assert (Hi : init w = (Raise (os_error ENOENT (join (script_dir w) ["sample_settings.py"])), w)).
  { unfold init. mstep. rewrite Hp. cbn [negb].
    unfold copyfile. mstep. unfold samefile. rewrite Ht.
    unfold bind at 1. unfold bind at 1. unfold read_bytes. by rewrite Ht. }
  assert (Hs : forall event,
             show_time show_time_rest event w
             = (Raise (os_error ENOENT (join (script_dir w) ["sample_settings.py"])), w)).
  { intros event. unfold show_time. by rewrite (bind_raise _ _ _ _ _ Hi). }
  split; [done|]. split.
  - intros x. unfold run_commands. by rewrite (bind_raise _ _ _ _ _ Hi).
  - intros event. unfold main, try_except, func. by rewrite Hs.
Qed.

End Missing_sample.

Lemma init_without_sample_witness :
  show_time (fun _ => ret tt) "sunset" (World fs_demo ["home"; "pi"] "/srv/img" [] [] [] 100)
  = (Raise (os_error ENOENT "/srv/img/sample_settings.py"),
     World fs_demo ["home"; "pi"] "/srv/img" [] [] [] 100).
Proof.
  apply (proj1 (init_without_sample cfg_demo (fun _ => ret tt) (fun _ => ret tt) "usage"
                  (World fs_demo ["home"; "pi"] "/srv/img" [] [] [] 100)
                  ["srv"; "img"; "sample_settings.py"]
                  ltac:(vm_compute; reflexivity) ltac:(vm_compute; reflexivity))).
Defined.

Lemma for_each_remove g : forall w,
  NoDup (key_of w <$> g) ->
  Forall (fun p => exists n, lstat w p = Some n /\ forall t, n <> Dir t) g ->
  exists m',
    for_each g remove w = (Val tt, with_fs w m')
    /\ (forall p, p ∈ g -> m' !! key_of w p = None)
    /\ (forall k, k ∉ key_of w <$> g -> m' !! k = fs w !! k).
Proof.
  induction g as [|p g IH]; intros w Hnd Hall.
  - exists (fs w). split; [by destruct w|]. split; [|done]. intros p Hp. by apply elem_of_nil in Hp.
  - rewrite fmap_cons in Hnd. apply NoDup_cons in Hnd as [Hnotin Hnd].
    apply Forall_cons in Hall as [(n & Hn & Hnodir) Hall].
    set (w1 := with_fs w (delete (key_of w p) (fs w))).
    assert (Hrm : remove p w = (Val tt, w1)).
    { unfold remove. rewrite Hn. destruct n; [by destruct (Hnodir mtime)|done|done]. }
    destruct (IH w1) as (m' & Hrun & Hgone & Hkeep).
    { done. }
    { apply Forall_forall. intros q Hq.
      destruct (proj1 (Forall_forall _ _) Hall q Hq) as (nq & Hnq & Hd).
      exists nq. split; [|done].
      unfold lstat in *. case_bool_decide; [done|].
      change (key_of w1 q) with (key_of w q). unfold w1. cbn [fs with_fs].
      rewrite lookup_delete_ne; [done|]. intros E. apply Hnotin. rewrite E.
      by apply list_elem_of_fmap_2. }
    exists m'. split; [|split].
    + cbn [for_each]. by rewrite (bind_val _ _ _ _ _ Hrm), Hrun.
    + intros q [->|Hq]%elem_of_cons; [|by apply Hgone].
      change (key_of w p) with (key_of w1 p). rewrite Hkeep by done.
      unfold w1. cbn [fs with_fs]. by rewrite lookup_delete_eq.
    + intros k Hk. rewrite fmap_cons in Hk. apply not_elem_of_cons in Hk as [Hk1 Hk2].
      rewrite Hkeep by done. unfold w1. cbn [fs with_fs]. by rewrite lookup_delete_ne.
Qed.

(** X8: with [--purge --silent] and an existing target directory, when
    the entries that [glob] lists there are files or symbolic links at
    different names, every one of them is removed without a question,
    nothing else in the file system changes, nothing is printed or read,
    and the run goes on to the linking stage. *)
Theorem silent_purge_removes_listed_entries cfg args w g :
  isdir w (target_dir cfg args) = true ->
  purge args = true ->
  silent args = true ->
  glob (join (target_dir cfg args) ["*"]) w = (Val g, w) ->
  NoDup (key_of w <$> g) ->
  Forall (fun p => exists n, lstat w p = Some n /\ forall t, n <> Dir t) g ->
  exists w1,
    prepare cfg args w = (Val true, w1)
    /\ stdout w1 = stdout w /\ stdin w1 = stdin w
    /\ (forall p, p ∈ g -> fs w1 !! key_of w p = None)
    /\ (forall k, k ∉ key_of w <$> g -> fs w1 !! k = fs w !! k).
Proof.
  intros Htd Hp Hs Hg Hnd Hall.
  destruct (for_each_remove g w Hnd Hall) as (m' & Hrun & Hgone & Hkeep).
  exists (with_fs w m'). split; [|done].
  unfold prepare. mstep. rewrite Htd. cbn [negb]. mstep. rewrite Hp.
  unfold purge_target. rewrite (bind_val _ _ _ _ _ Hg). rewrite Hs. cbn [negb].
  destruct g as [|p g'] eqn:Eg.
  - cbn [length Nat.ltb Nat.leb]. simpl in Hrun. injection Hrun as Hrun.
    unfold ret. by rewrite <- Hrun.
  - cbn [length Nat.ltb Nat.leb]. mstep. by rewrite (bind_val _ _ _ _ _ Hrun).
Qed.

Lemma silent_purge_removes_listed_entries_witness :
  exists w1,
    prepare cfg_demo args_purge_silent w_demo = (Val true, w1)
    /\ stdout w1 = stdout w_demo /\ stdin w1 = stdin w_demo
    /\ (forall p, p ∈ ["/srv/img/out/notes.txt"; "/srv/img/out/0.jpg"] ->
          fs w1 !! key_of w_demo p = None)
    /\ (forall k, k ∉ key_of w_demo <$> ["/srv/img/out/notes.txt"; "/srv/img/out/0.jpg"] ->
          fs w1 !! k = fs w_demo !! k).
Proof.
  apply (silent_purge_removes_listed_entries cfg_demo args_purge_silent w_demo
           ["/srv/img/out/notes.txt"; "/srv/img/out/0.jpg"]).
  - vm_compute. reflexivity.
  - reflexivity.
  - reflexivity.
  - unfold glob, ask. f_equal.
  - apply (bool_decide_unpack _). vm_compute. exact I.
  - repeat (constructor; [eexists; split; [vm_compute; reflexivity|discriminate]|]). constructor.
Defined.

Lemma filter_key_above (t : Z) (l : list (Z * string)) :
  Forall (fun y => (t < fst y)%Z) l -> filter (fun y => fst y = t) l = [].
Proof.
  induction 1 as [|y l Hy _ IH]; [done|]. rewrite filter_cons_False by lia. done.
Qed.

Lemma insert_by_key_filter x l t :
  StronglySorted key_le l ->
  filter (fun y => fst y = t) (insert_by_key x l)
  = filter (fun y => fst y = t) l ++ filter (fun y => fst y = t) [x].
Proof.
  induction l as [|y r IH]; intros Hs; [done|].
  apply StronglySorted_inv in Hs as [Hr Hy]. simpl.
  destruct (fst x <? fst y)%Z eqn:E.
  - apply Z.ltb_lt in E.
    destruct (decide (fst x = t)) as [Ht|Ht].
    + rewrite (filter_cons_True _ x) by done.
      rewrite (filter_key_above t (y :: r)).
      * by rewrite (filter_cons_True _ x) by done.
      * constructor; [lia|]. eapply Forall_impl; [exact Hy|]. unfold key_le. intros; lia.
    + rewrite (filter_cons_False _ x) by done.
      rewrite (filter_cons_False _ x []) by done. by rewrite app_nil_r.
  - destruct (decide (fst y = t)) as [Ht|Ht].
    + rewrite !(filter_cons_True _ y) by done. by rewrite IH.
    + rewrite !(filter_cons_False _ y) by done. by rewrite IH.
Qed.

Lemma sort_by_key_from_filter l : forall acc t,
  StronglySorted key_le acc ->
  filter (fun y => fst y = t) (foldl (fun acc x => insert_by_key x acc) acc l)
  = filter (fun y => fst y = t) acc ++ filter (fun y => fst y = t) l.
Proof.
  induction l as [|x l IH]; intros acc t Hs; simpl; [by rewrite app_nil_r|].
  rewrite IH by by apply insert_by_key_sorted.
  rewrite insert_by_key_filter by done. rewrite <- app_assoc. f_equal.
  destruct (decide (fst x = t)).
  - by rewrite !(filter_cons_True _ x) by done.
  - by rewrite !(filter_cons_False _ x) by done.
Qed.

(** X9: [sorted(glob(pattern), key=os.path.getmtime)], when every
    matched path has a modification time: the result is a rearrangement
    of the list of [glob], in ascending order of the times, and paths with
    the same time stay in the order in which [glob] listed them. *)
Theorem sorted_by_mtime_is_stable w found times :
  Forall2 (fun p t => getmtime p w = (Val t, w)) found times ->
  sorted found getmtime w = (Val (snd <$> sort_by_key (zip times found)), w)
  /\ sort_by_key (zip times found) ≡ₚ zip times found
  /\ StronglySorted key_le (sort_by_key (zip times found))
  /\ forall t, filter (fun y => fst y = t) (sort_by_key (zip times found))
               = filter (fun y => fst y = t) (zip times found).
Proof.
  intros H. split.
  { unfold sorted. by rewrite (bind_val _ _ _ _ _ (map_m_getmtime _ _ _ H)). }
  split; [apply sort_by_key_perm|]. split; [apply sort_by_key_sorted|].
  intros t. unfold sort_by_key. rewrite sort_by_key_from_filter by constructor. done.
Qed.

Lemma sorted_by_mtime_is_stable_witness :
  fst (sorted ["/srv/img/c+1.jpg"; "/srv/img/c+2.jpg"; "/srv/img/b+1.jpg"] getmtime w_demo)
  = Val ["/srv/img/b+1.jpg"; "/srv/img/c+1.jpg"; "/srv/img/c+2.jpg"].
Proof.
  rewrite (proj1 (sorted_by_mtime_is_stable w_demo
                    ["/srv/img/c+1.jpg"; "/srv/img/c+2.jpg"; "/srv/img/b+1.jpg"]
                    [20; 21; 10]%Z
                    ltac:(repeat (constructor; [reflexivity|]); constructor))).
  reflexivity.
Defined.

Lemma mkdir_at_new (k : key) p w :
  fs w !! k = None -> dir_at (fs w) (removelast k) = true ->
  mkdir_at k p w = (Val tt, with_fs w (<[k := Dir (now w)]> (fs w))).
Proof.
  intros Hk Hd. unfold mkdir_at. rewrite Hk. unfold dir_at in Hd.
  by destruct (follow _ _ _) as [k1 [| |]| |].
Qed.

Lemma follow_dir (fuel : nat) (m : gmap key node) (k : key) t :
  m !! k = Some (Dir t) -> follow fuel m k = Found k (Dir t).
Proof. intros H. destruct fuel; simpl; by rewrite H. Qed.

Lemma rstrip_slash_plain p : ends_with_slash p = false -> rstrip_slash p = p.
Proof.
  induction p as [|c r IH]; [done|]. simpl. destruct r as [|c' r'].
  - intros ->. done.
  - intros H. rewrite (IH H). done.
Qed.

Lemma rstrip_slash_app_slash p : rstrip_slash (p +:+ String slash "") = rstrip_slash p.
Proof.
  induction p as [|c r IH]; [done|]. rewrite append_cons. simpl. by rewrite IH.
Qed.

(** [os.path.split] of a path joined with one more name. *)
Lemma split_join2_plain p n :
  p <> "" -> ends_with_slash p = false -> has_slash n = false ->
  split (join2 p n) = (p, n).
Proof.
  intros Hp He Hn. unfold join2.
  rewrite (simple_name_not_abs n Hn), bool_decide_false, He by done. cbn [orb].
  unfold split. change (p +:+ "/" +:+ n) with (p +:+ String slash n).
  rewrite rsplit_app_slash by done.
  rewrite rstrip_slash_app_slash, rstrip_slash_plain by done. by destruct p.
Qed.

Lemma ends_with_slash_app a b : b <> "" -> ends_with_slash (a +:+ b) = ends_with_slash b.
Proof.
  intros Hb. induction a as [|c a IH]; [done|]. rewrite append_cons. simpl.
  destruct (a +:+ b) eqn:E; [|done]. apply append_eq_nil in E. done.
Qed.

Lemma ends_with_slash_plain n : has_slash n = false -> ends_with_slash n = false.
Proof.
  induction n as [|c r IH]; [done|]. simpl. intros [Hc Hr]%orb_false_iff.
  destruct r; [done|]. by apply IH.
Qed.

Lemma join2_no_final_slash p n :
  simple_name n -> ends_with_slash (join2 p n) = false.
Proof.
  intros (Hs & Hne & _). unfold join2. rewrite (simple_name_not_abs n Hs).
  destruct (_ || _).
  - rewrite ends_with_slash_app by done. by apply ends_with_slash_plain.
  - rewrite ends_with_slash_app by (by intros E%append_eq_nil).
    rewrite ends_with_slash_app by done. by apply ends_with_slash_plain.
Qed.

Lemma join2_longer p n : simple_name n -> String.length p < String.length (join2 p n).
Proof.
  intros (Hs & Hne & _). unfold join2. rewrite (simple_name_not_abs n Hs).
  destruct (_ || _); rewrite !append_length; destruct n; simpl; done || lia.
Qed.

Lemma join_snoc b ns n : join b (ns ++ [n]) = join2 (join b ns) n.
Proof. unfold join. by rewrite foldl_app. Qed.

Lemma join_nonempty b ns : b <> "" -> Forall simple_name ns -> join b ns <> "".
Proof.
  intros Hb Hall. destruct ns as [|n ns _] using rev_ind; [done|].
  rewrite join_snoc. apply join2_nonempty.
  apply Forall_app in Hall as [_ Hn]. apply Forall_inv in Hn. exact (proj1 (proj2 Hn)).
Qed.

Lemma key_of_join w b ns :
  Forall simple_name ns -> key_of w (join b ns) = key_of w b ++ ns.
Proof.
  induction ns as [|n ns IH] using rev_ind; intros Hall; [by rewrite app_nil_r|].
  apply Forall_app in Hall as [Hns Hn]. apply Forall_inv in Hn.
  rewrite join_snoc. unfold key_of in *.
  change (join2 (join b ns) n) with (join (join b ns) [n]).
  rewrite (key_from_join_name (cwd w) (join b ns) n Hn), IH by done. by rewrite app_assoc.
Qed.

(** [os.makedirs] below an existing directory, along names none of which
    is there yet. *)
Lemma makedirs_rec_creates b names : forall (fuel : nat) w,
  b <> "" -> isdir w b = true ->
  names <> [] -> Forall simple_name names ->
  (forall i, 0 < i <= length names -> fs w !! (key_of w b ++ take i names) = None) ->
  String.length (join b names) < fuel ->
  exists m',
    makedirs_rec fuel (join b names) w = (Val tt, with_fs w m')
    /\ (forall i, 0 < i <= length names ->
          m' !! (key_of w b ++ take i names) = Some (Dir (now w)))
    /\ (forall k, (forall i, 0 < i <= length names -> k <> key_of w b ++ take i names) ->
          m' !! k = fs w !! k).
Proof.
  induction names as [|n ns IH] using rev_ind; [done|].
  intros fuel w Hb Hdir _ Hall Hfree Hfuel.
  apply Forall_app in Hall as [Hns Hn]. apply Forall_inv in Hn.
  pose proof Hn as (Hslash & Hne & Hdot & _).
  destruct fuel as [|fuel]; [lia|].
  rewrite join_snoc in Hfuel |- *.
  assert (Hkey : key_of w (join2 (join b ns) n) = key_of w b ++ ns ++ [n]).
  { rewrite <- join_snoc, key_of_join; [done|]. apply Forall_app. by split; [|constructor]. }
  assert (Hlast : fs w !! (key_of w b ++ ns ++ [n]) = None).
  { rewrite <- (firstn_all (ns ++ [n])). apply Hfree. rewrite length_app. simpl. lia. }
  assert (Hj : join2 (join b ns) n <> "") by (by apply join2_nonempty).
  destruct ns as [|n' ns' _] using rev_ind.
  - (* the head is the directory that is there *)
    cbn [join foldl] in *. cbn [makedirs_rec].
    destruct (split_join2 b n Hb Hslash) as (Hsnd & Hdn & _).
    pose proof (key_from_dirname_join2 (cwd w) b n Hb Hslash) as Hkd.
    unfold dirname in *. destruct (split (join2 b n)) as [head tail]. cbn [fst snd] in *.
    subst tail. rewrite (bool_decide_false (n = "")) by done.
    rewrite bind_ask.
    assert (Hex : path_exists w head = true).
    { unfold path_exists, stat. rewrite bool_decide_false by done.
      unfold key_of. rewrite Hkd. unfold isdir, stat in Hdir.
      rewrite bool_decide_false in Hdir by done. unfold key_of in Hdir.
      by destruct (follow _ _ _) as [k [| |]| |]. }
    rewrite Hex. cbn [negb andb]. rewrite andb_false_r, bind_ret.
    unfold mkdir. rewrite bool_decide_false by done. rewrite bind_ask, Hkey.
    cbn [app] in *.
    rewrite mkdir_at_new; [|done|rewrite removelast_last; by apply isdir_dir_at].
    eexists. split; [reflexivity|]. split.
    + intros i Hi. simpl in Hi. assert (i = 1) as -> by lia. by rewrite lookup_insert_eq.
    + intros k Hk. rewrite lookup_insert_ne; [done|]. intros <-. by apply (Hk 1); simpl; [lia|].
  - (* the head is made first *)
    apply Forall_app in Hns as [Hns' Hn']. apply Forall_inv in Hn'.
    set (ns := ns' ++ [n']) in *.
    assert (Hnse : ns <> []) by (unfold ns; by destruct ns').
    assert (Hallns : Forall simple_name ns) by (apply Forall_app; by split; [|constructor]).
    assert (Hp : join b ns <> "") by (by apply join_nonempty).
    assert (Hpe : ends_with_slash (join b ns) = false).
    { unfold ns. rewrite join_snoc. by apply join2_no_final_slash. }
    destruct (IH fuel w Hb Hdir Hnse Hallns) as (m1 & Hrun & Hnew & Hold).
    { intros i Hi. rewrite <- (take_app_le ns [n]) by lia. apply Hfree.
      rewrite length_app. simpl. lia. }
    { pose proof (join2_longer (join b ns) n Hn). lia. }
    cbn [makedirs_rec]. rewrite split_join2_plain by done.
    rewrite (bool_decide_false (n = "")) by done. rewrite bind_ask.
    assert (Hex : path_exists w (join b ns) = false).
    { unfold path_exists, stat. rewrite bool_decide_false by done.
      rewrite key_of_join by done.
      rewrite (follow_None _ _ (key_of w b ++ ns)); [done|].
      pose proof (Hfree (length ns)) as Hf. rewrite take_app_length in Hf.
      apply Hf. rewrite length_app. simpl. destruct ns; [done|simpl; lia]. }
    rewrite Hex. cbn [negb]. rewrite !bool_decide_false by done. cbn [negb andb].
    rewrite bind_assoc. unfold bind at 1, try_except. rewrite Hrun.
    rewrite bind_ret. unfold mkdir. rewrite bool_decide_false by done. rewrite bind_ask.
    change (key_of (with_fs w m1) ?q) with (key_of w q). rewrite Hkey.
    rewrite mkdir_at_new.
    + eexists. split; [reflexivity|]. cbn [now with_fs]. split.
      * intros i Hi. rewrite length_app in Hi. simpl in Hi.
        destruct (decide (i = length ns + 1)) as [->|Hi'].
        -- rewrite take_ge by (rewrite length_app; simpl; lia).
           by rewrite lookup_insert_eq.
        -- rewrite take_app_le by lia. rewrite lookup_insert_ne.
           ++ apply Hnew. lia.
           ++ intros E. apply app_inv_head in E. apply (f_equal length) in E.
              rewrite length_app, length_take in E. simpl in E. lia.
      * intros k Hk. rewrite lookup_insert_ne.
        -- apply Hold. intros i Hi E. apply (Hk i); [rewrite length_app; simpl; lia|].
           rewrite take_app_le by lia. done.
        -- intros <-. apply (Hk (length ns + 1)); [rewrite length_app; simpl; lia|].
           rewrite take_ge by (rewrite length_app; simpl; lia). done.
    + cbn [fs with_fs]. rewrite Hold; [done|].
      intros i Hi E. apply app_inv_head in E. apply (f_equal length) in E.
      rewrite length_app, length_take in E. simpl in E. lia.
    + cbn [fs with_fs]. rewrite app_assoc, removelast_last. unfold dir_at.
      rewrite (follow_dir _ _ _ (now w)); [done|].
      rewrite <- (firstn_all ns) at 1. apply Hnew. destruct ns; [done|simpl; lia].
Qed.

(** X10: when the target directory is missing, [os.makedirs] makes it
    together with every missing directory above it.  Let the path of the
    target directory, which has no ".." in it, be an existing directory
    followed by the names [names], none of which exists yet.  Then,
    without [--purge], the preparation makes one new directory for each of
    these names, changes nothing else, prints nothing, and the run goes on
    with the target directory in place. *)
Theorem missing_target_directory_is_made cfg args w base names :
  purge args = false ->
  target_dir cfg args = join base names ->
  ".." ∉ split_slash (target_dir cfg args) ->
  base <> "" ->
  isdir w base = true ->
  names <> [] ->
  Forall simple_name names ->
  (forall i, 0 < i <= length names -> fs w !! (key_of w base ++ take i names) = None) ->
  exists w1,
    prepare cfg args w = (Val true, w1)
    /\ stdout w1 = stdout w
    /\ isdir w1 (target_dir cfg args) = true
    /\ (forall i, 0 < i <= length names ->
          fs w1 !! (key_of w base ++ take i names) = Some (Dir (now w)))
    /\ (forall k, (forall i, 0 < i <= length names -> k <> key_of w base ++ take i names) ->
          fs w1 !! k = fs w !! k).
Proof.
  intros Hp Htd _ Hb Hdir Hnames Hall Hfree.
  destruct (makedirs_rec_creates base names (S (String.length (join base names))) w
              Hb Hdir Hnames Hall Hfree) as (m' & Hrun & Hnew & Hold); [lia|].
  assert (Hne : join base names <> "") by (by apply join_nonempty).
  assert (Habsent : fs w !! (key_of w base ++ names) = None).
  { rewrite <- (firstn_all names) at 1. apply Hfree. destruct names; [done|simpl; lia]. }
  assert (Hlast : m' !! (key_of w base ++ names) = Some (Dir (now w))).
  { rewrite <- (firstn_all names) at 1. apply Hnew. destruct names; [done|simpl; lia]. }
  exists (with_fs w m'). rewrite Htd. split; [|split; [done|split; [|done]]].
  - unfold prepare. rewrite bind_ask, Htd.
    assert (Hno : isdir w (join base names) = false).
    { unfold isdir, stat. rewrite bool_decide_false by done.
      rewrite key_of_join by done. by rewrite (follow_None _ _ _ Habsent). }
    rewrite Hno. cbn [negb]. rewrite Hp.
    unfold makedirs. by rewrite (bind_val _ _ _ _ _ Hrun).
  - unfold isdir, stat. rewrite bool_decide_false by done.
    change (key_of (with_fs w m') ?q) with (key_of w q). rewrite key_of_join by done.
    cbn [fs with_fs]. by rewrite (follow_dir _ _ _ _ Hlast).
Qed.

Lemma missing_target_directory_is_made_witness :
  exists w1,
    prepare cfg_demo (CollectArgs 1 "/srv/film/day1" "" false false false) w_demo = (Val true, w1)
    /\ stdout w1 = stdout w_demo
    /\ isdir w1 (target_dir cfg_demo (CollectArgs 1 "/srv/film/day1" "" false false false)) = true
    /\ (forall i, 0 < i <= length ["film"; "day1"] ->
          fs w1 !! (key_of w_demo "/srv" ++ take i ["film"; "day1"]) = Some (Dir (now w_demo)))
    /\ (forall k, (forall i, 0 < i <= length ["film"; "day1"] ->
                     k <> key_of w_demo "/srv" ++ take i ["film"; "day1"]) ->
          fs w1 !! k = fs w_demo !! k).
Proof.
  apply (missing_target_directory_is_made cfg_demo
           (CollectArgs 1 "/srv/film/day1" "" false false false) w_demo
           "/srv" ["film"; "day1"]).
  - reflexivity.
  - reflexivity.
  - vm_compute. intros H. repeat (apply elem_of_cons in H as [H|H]; [discriminate|]).
    by apply elem_of_nil in H.
  - discriminate.
  - vm_compute. reflexivity.
  - discriminate.
  - repeat constructor; discriminate.
  - intros i Hi. simpl in Hi.
    assert (i = 1 \/ i = 2) as [-> | ->] by lia; vm_compute; reflexivity.
Defined.

Lemma ends_with_empty name : ends_with "" name = true.
Proof.
  induction name as [|c r IH]; [done|]. cbn [ends_with]. rewrite IH. apply orb_true_r.
Qed.

(** What [glob] lists for the purge. *)
Lemma glob_star_lists_visible_entries cfg args w p :
  target_dir cfg args <> "" ->
  has_magic (target_dir cfg args) = false ->
  p ∈ iglob (S (String.length (join (target_dir cfg args) ["*"]))) w
        (join (target_dir cfg args) ["*"]) false
  <-> exists name,
        p = join (dirname (join (target_dir cfg args) ["*"])) [name]
        /\ isdir w (target_dir cfg args) = true
        /\ is_Some (fs w !! (key_of w (target_dir cfg args) ++ [name]))
        /\ ishidden name = false.
Proof.
  intros Hne Hm.
  change (join (target_dir cfg args) ["*"]) with (join2 (target_dir cfg args) "*").
  rewrite iglob_pattern; try done.
  rewrite list_elem_of_fmap. split.
  - intros (name & -> & [Hf [Hh Hin]%list_elem_of_filter]%list_elem_of_filter).
    exists name. split; [done|].
    destruct (isdir w (target_dir cfg args)); [|by apply elem_of_nil in Hin].
    by apply elem_of_children in Hin.
  - intros (name & -> & Hdir & Hin & Hh). exists name. split; [done|].
    apply list_elem_of_filter. split.
    { change "*" with ("*" +:+ ""). rewrite fnmatch_suffix by done. apply ends_with_empty. }
    apply list_elem_of_filter. split; [done|]. rewrite Hdir. by apply elem_of_children.
Qed.

Lemma remove_frame p w r w' :
  remove p w = (r, w') ->
  cwd w' = cwd w /\ forall k, k <> key_of w p -> fs w' !! k = fs w !! k.
Proof.
  unfold remove. destruct (lstat w p) as [[| |]|]; intros [= _ <-]; (split; [done|]);
    intros k Hk; try done; cbn [fs with_fs]; by rewrite lookup_delete_ne.
Qed.

Lemma for_each_remove_frame g : forall w r w',
  for_each g remove w = (r, w') ->
  cwd w' = cwd w /\ forall k, k ∉ key_of w <$> g -> fs w' !! k = fs w !! k.
Proof.
  induction g as [|p g IH]; intros w r w'; simpl.
  - by intros [= _ <-].
  - unfold bind. destruct (remove p w) as [[[]|e] w1] eqn:E.
    + destruct (remove_frame _ _ _ _ E) as [Hc Hf]. intros H.
      destruct (IH _ _ _ H) as [Hc' Hf']. split; [congruence|].
      intros k [Hk1 Hk2]%not_elem_of_cons. rewrite Hf'.
      * by apply Hf.
      * unfold key_of in *. by rewrite Hc.
    + intros [= _ <-]. destruct (remove_frame _ _ _ _ E) as [Hc Hf]. split; [done|].
      intros k [Hk1 Hk2]%not_elem_of_cons. by apply Hf.
Qed.

(** The question of the purge changes neither the file system nor the
    working directory. *)
Lemma purge_question cfg args :
  steps (fun w w' => fs w' = fs w /\ cwd w' = cwd w)
    (if negb (silent args) then
       let* _ := print ("All files in target directory " +:+ target_dir cfg args
                        +:+ " will be deleted.") in
       let* _ := print "Do you want to continue? (y/n)" in
       let* answer := input in
       if negb (bool_decide (lower answer = "y")) then
         let* _ := print "Operation cancelled." in
         ret false
       else ret true
     else ret true).
Proof.
  set (R := fun w w' : world => fs w' = fs w /\ cwd w' = cwd w).
  assert (Hr : forall w, R w w) by done.
  assert (Ht : forall w1 w2 w3, R w1 w2 -> R w2 w3 -> R w1 w3).
  { intros w1 w2 w3 [H1 H2] [H3 H4]. split; congruence. }
  assert (Ho : forall w l, R w (with_stdout w l)) by done.
  assert (Hi : forall w l, R w (with_stdin w l)) by done.
  destruct (negb (silent args)); [|steps_step Hr Ht Ho Hi].
  steps_step Hr Ht Ho Hi. intros _. steps_step Hr Ht Ho Hi. intros _.
  steps_step Hr Ht Ho Hi. intros answer. destruct (negb _); [|steps_step Hr Ht Ho Hi].
  steps_step Hr Ht Ho Hi. intros _. steps_step Hr Ht Ho Hi.
Qed.

(** X11: what the purge considers and what it spares.  For an existing
    target directory whose path is not empty and has no [*], [?] or [[]
    in it, [glob] of the target directory joined with "*" lists exactly
    the entries of that directory whose names do not start with a dot.
    In a file system whose names are proper entry names, the preparation
    of the target directory, with or without [--purge] and [--silent],
    whatever is answered and whether it returns or raises, leaves every
    entry of the target directory whose name starts with a dot as it
    was. *)
Theorem purge_spares_dot_files cfg args w :
  target_dir cfg args <> "" ->
  has_magic (target_dir cfg args) = false ->
  isdir w (target_dir cfg args) = true ->
  (forall p,
     p ∈ iglob (S (String.length (join (target_dir cfg args) ["*"]))) w
           (join (target_dir cfg args) ["*"]) false
     <-> exists name,
           p = join (dirname (join (target_dir cfg args) ["*"])) [name]
           /\ is_Some (fs w !! (key_of w (target_dir cfg args) ++ [name]))
           /\ ishidden name = false)
  /\ (well_named (fs w) ->
      forall name,
        ishidden name = true ->
        fs (snd (prepare cfg args w)) !! (key_of w (target_dir cfg args) ++ [name])
        = fs w !! (key_of w (target_dir cfg args) ++ [name])).
Proof.
  intros Hne Hm Hdir. split.
  { intros p. rewrite (glob_star_lists_visible_entries cfg args w p Hne Hm).
    split; intros (name & H1 & H2); exists name; [by destruct H2 as (_ & ? & ?)|].
    by destruct H2. }
  intros Hwf name Hhid.
  set (k := key_of w (target_dir cfg args) ++ [name]).
  unfold prepare. rewrite bind_ask, Hdir. cbn [negb]. rewrite bind_ret.
  destruct (purge args); [|done].
  unfold purge_target, glob. rewrite bind_ask.
  set (g := iglob _ w _ false).
  assert (Hg : k ∉ key_of w <$> g).
  { intros (p & Hk & Hp)%list_elem_of_fmap.
    apply (glob_star_lists_visible_entries cfg args w p Hne Hm) in Hp
      as (name' & -> & _ & Hin & Hvis).
    assert (Hsimple : simple_name name').
    { apply Hwf in Hin. apply Forall_app in Hin as [_ Hin]. by apply Forall_inv in Hin. }
    unfold key_of in Hk. rewrite (key_from_join_name _ _ _ Hsimple) in Hk.
    change (join (target_dir cfg args) ["*"]) with (join2 (target_dir cfg args) "*") in Hk.
    rewrite key_from_dirname_join2 in Hk by done.
    unfold k, key_of in Hk. apply app_inj_tail in Hk as [_ <-]. congruence. }
  destruct (0 <? length g)%nat; [|done].
  match goal with
  | |- context [bind ?c _ w] => destruct (c w) as [[go|e] wa] eqn:Ego;
                                 pose proof (purge_question cfg args w _ _ Ego) as [Hfs Hcwd]
  end.
  - rewrite (bind_val _ _ _ _ _ Ego). destruct go; [|change (fs wa !! k = fs w !! k); by rewrite Hfs].
    destruct (for_each g remove wa) as [[[]|e] wb] eqn:Erm;
      [rewrite (bind_val _ _ _ _ _ Erm)|rewrite (bind_raise _ _ _ _ _ Erm)];
      change (fs wb !! k = fs w !! k);
      destruct (for_each_remove_frame _ _ _ _ Erm) as [_ Hf];
      (rewrite Hf; [by rewrite Hfs|]); unfold key_of; by rewrite Hcwd.
  - rewrite (bind_raise _ _ _ _ _ Ego). cbn [snd]. by rewrite Hfs.
Qed.

Lemma w_dot_well_named : well_named (fs w_dot).
Proof.
  intros k [n Hn]. apply elem_of_map_to_list in Hn.
  remember (map_to_list (fs w_dot)) as l eqn:El. vm_compute in El. subst l.
  repeat (apply elem_of_cons in Hn as [Hn|Hn];
          [injection Hn as -> _; repeat constructor; discriminate|]).
  by apply elem_of_nil in Hn.
Qed.

Lemma purge_spares_dot_files_witness :
  fs (snd (prepare cfg_demo args_purge_silent w_dot))
    !! (key_of w_dot (target_dir cfg_demo args_purge_silent) ++ [".keep"])
  = Some (File "kept" 7)
  /\ fs (snd (prepare cfg_demo args_purge_silent w_dot)) !! ["srv"; "img"; "out"; "notes.txt"]
     = None.
Proof.
  split; [|vm_compute; reflexivity].
  rewrite (proj2 (purge_spares_dot_files cfg_demo args_purge_silent w_dot
                    ltac:(discriminate) eq_refl ltac:(vm_compute; reflexivity))
             w_dot_well_named ".keep" eq_refl).
  vm_compute. reflexivity.
Defined.
